(** * Base-velocity estimator of the A1 robot

    Shallow embedding of
    [motion_imitation/robots/a1_robot_velocity_estimator.py]
    (class [VelocityEstimator]) and statements about it.

    Scalars.  The Python code computes on IEEE doubles held in numpy
    arrays.  Here a scalar is an exact rational in canonical form ([Qc]), so
    that equality of states is plain equality and the arithmetic of the
    filter is the closed-form arithmetic of the recursion; rounding is outside
    the model.

    Errors.  A Python exception is [None]: a function that can raise returns
    an [option].

    Sensors.  The estimator reads its robot through a handful of getters.
    The constant [time_step] and the quaternion conversion live in the
    [Robot] record the estimator holds; what the getters return during one
    call of [update] is a [Sensors] snapshot passed to that call. *)

From Stdlib Require Import ZArith QArith Qcanon List Bool Lia.
Import ListNotations.

Local Open Scope Qc_scope.

(** ** Small vectors and matrices (numpy arrays of shape (3,) and (3,3)) *)

Module LinAlg.

Record Vec3 : Type := mkVec3 { vx : Qc; vy : Qc; vz : Qc }.

(** Rows of a 3x3 array, row-major as numpy stores it. *)
Record Mat3 : Type := mkMat3 { r0 : Vec3; r1 : Vec3; r2 : Vec3 }.

(** [np.zeros(3)] *)
Definition zeros3 : Vec3 := mkVec3 0 0 0.

(** [np.eye(3)] *)
Definition eye3 : Mat3 :=
  mkMat3 (mkVec3 1 0 0) (mkVec3 0 1 0) (mkVec3 0 0 1).

Definition vadd (a b : Vec3) : Vec3 :=
  mkVec3 (vx a + vx b) (vy a + vy b) (vz a + vz b).

Definition vsub (a b : Vec3) : Vec3 :=
  mkVec3 (vx a - vx b) (vy a - vy b) (vz a - vz b).

Definition vneg (a : Vec3) : Vec3 := mkVec3 (- vx a) (- vy a) (- vz a).

(** [a * k] for an array [a] and a scalar [k]. *)
Definition vscale (a : Vec3) (k : Qc) : Vec3 :=
  mkVec3 (vx a * k) (vy a * k) (vz a * k).

(** [a / k], elementwise. *)
Definition vdiv (a : Vec3) (k : Qc) : Vec3 :=
  mkVec3 (vx a / k) (vy a / k) (vz a / k).

Definition vdot (a b : Vec3) : Qc := vx a * vx b + vy a * vy b + vz a * vz b.

(** [m.dot(v)] *)
Definition mvec (m : Mat3) (v : Vec3) : Vec3 :=
  mkVec3 (vdot (r0 m) v) (vdot (r1 m) v) (vdot (r2 m) v).

Definition col0 (m : Mat3) : Vec3 := mkVec3 (vx (r0 m)) (vx (r1 m)) (vx (r2 m)).
Definition col1 (m : Mat3) : Vec3 := mkVec3 (vy (r0 m)) (vy (r1 m)) (vy (r2 m)).
Definition col2 (m : Mat3) : Vec3 := mkVec3 (vz (r0 m)) (vz (r1 m)) (vz (r2 m)).

(** [m.T] *)
Definition transpose (m : Mat3) : Mat3 := mkMat3 (col0 m) (col1 m) (col2 m).

Definition row_times (r : Vec3) (b : Mat3) : Vec3 :=
  mkVec3 (vdot r (col0 b)) (vdot r (col1 b)) (vdot r (col2 b)).

(** [dot(a, b)] for two matrices. *)
Definition mmul (a b : Mat3) : Mat3 :=
  mkMat3 (row_times (r0 a) b) (row_times (r1 a) b) (row_times (r2 a) b).

Definition madd (a b : Mat3) : Mat3 :=
  mkMat3 (vadd (r0 a) (r0 b)) (vadd (r1 a) (r1 b)) (vadd (r2 a) (r2 b)).

Definition msub (a b : Mat3) : Mat3 :=
  mkMat3 (vsub (r0 a) (r0 b)) (vsub (r1 a) (r1 b)) (vsub (r2 a) (r2 b)).

(** [m * k] for a scalar [k]. *)
Definition mscale (m : Mat3) (k : Qc) : Mat3 :=
  mkMat3 (vscale (r0 m) k) (vscale (r1 m) k) (vscale (r2 m) k).

Definition det3 (m : Mat3) : Qc :=
  let '(mkMat3 (mkVec3 a b c) (mkVec3 d e f) (mkVec3 g h i)) := m in
  a * (e * i - f * h) - b * (d * i - f * g) + c * (d * h - e * g).

(** Transposed cofactor matrix. *)
Definition adjugate (m : Mat3) : Mat3 :=
  let '(mkMat3 (mkVec3 a b c) (mkVec3 d e f) (mkVec3 g h i)) := m in
  mkMat3 (mkVec3 (e * i - f * h) (c * h - b * i) (b * f - c * e))
         (mkVec3 (f * g - d * i) (a * i - c * g) (c * d - a * f))
         (mkVec3 (d * h - e * g) (b * g - a * h) (a * e - b * d)).

(** Inverse of a 3x3 matrix; a singular matrix has none (numpy raises
    [LinAlgError]). *)
Definition inv3 (m : Mat3) : option Mat3 :=
  if Qc_eq_dec (det3 m) 0 then None
  else Some (mscale (adjugate m) (/ det3 m)).

End LinAlg.
Export LinAlg.

(** ** Option as the exception monad *)

Definition bind {A B : Type} (m : option A) (k : A -> option B) : option B :=
  match m with
  | Some a => k a
  | None => None
  end.

Notation "x <- m ;; k" := (bind m (fun x => k))
  (at level 61, m at next level, right associativity).

(** The call returned. *)
Definition returns {A : Type} (m : option A) : bool :=
  match m with
  | Some _ => true
  | None => false
  end.

(** ** The Kalman filter object ([filterpy.kalman.KalmanFilter]) *)

Module Kalman.

(** The attributes of the filter object the estimator sets and reads. *)
Record KalmanFilter : Type := mkKalmanFilter {
  x : Vec3;   (* state *)
  P : Mat3;   (* state covariance *)
  Q : Mat3;   (* process noise *)
  R : Mat3;   (* measurement noise *)
  H : Mat3;   (* measurement function *)
  F : Mat3;   (* state transition matrix *)
  B : Mat3    (* control matrix *)
}.

Definition set_x_P (k : KalmanFilter) (x' : Vec3) (P' : Mat3) : KalmanFilter :=
  mkKalmanFilter x' P' (Q k) (R k) (H k) (F k) (B k).

(** The matrices neither [predict] nor [update] assigns. *)
Definition parameters (k : KalmanFilter) : Mat3 * Mat3 * Mat3 * Mat3 * Mat3 :=
  (Q k, R k, H k, F k, B k).

(** Modelled from the spec: [KalmanFilter.predict] belongs to the filterpy
    package, which is not among the sources.  Section 4.1 of the
    specification: x <- F x + B u, P <- F P F^T + Q. *)
Definition predict (k : KalmanFilter) (u : Vec3) : KalmanFilter :=
  set_x_P k
    (vadd (mvec (F k) (x k)) (mvec (B k) u))
    (madd (mmul (mmul (F k) (P k)) (transpose (F k))) (Q k)).

(** Modelled from the spec: [KalmanFilter.update] belongs to the filterpy
    package, which is not among the sources.  Section 4.1 of the
    specification: y = z - H x, S = H P H^T + R, K = P H^T S^-1,
    x <- x + K y, P <- (I - K H) P; section 9 has the inverse of S taken
    explicitly, so a singular S is an error. *)
Definition update (k : KalmanFilter) (z : Vec3) : option KalmanFilter :=
  let y := vsub z (mvec (H k) (x k)) in
  let PHT := mmul (P k) (transpose (H k)) in
  let S := madd (mmul (H k) PHT) (R k) in
  SI <- inv3 S ;;
  let K := mmul PHT SI in
  Some (set_x_P k
          (vadd (x k) (mvec K y))
          (mmul (msub eye3 (mmul K (H k))) (P k))).

End Kalman.

(** ** The moving-average smoother
    ([motion_imitation.utilities.moving_window_filter.MovingWindowFilter]) *)

Module MovingWindow.

Record MovingWindowFilter : Type := mkMovingWindowFilter {
  window_size : Z;          (* capacity *)
  value_deque : list Qc;    (* held samples, oldest first *)
  running_sum : Qc          (* sum of the held samples *)
}.

(** Modelled from the spec: the constructor of [MovingWindowFilter], whose
    module is not among the sources.  Section 3: a fixed-capacity buffer with
    a running sum, empty at the start; sections 4.1 and 7: a non-positive
    window size is rejected at construction time. *)
Definition new (window : Z) : option MovingWindowFilter :=
  if (0 <? window)%Z then Some (mkMovingWindowFilter window [] 0)
  else None.

(** Modelled from the spec: [MovingWindowFilter.calculate_average], whose
    module is not among the sources.  Section 4.3: append the sample, evicting
    the oldest one once the buffer is at capacity, and return the
    arithmetic mean of the samples then held. *)
Definition calculate_average (f : MovingWindowFilter) (new_sample : Qc)
  : Qc * MovingWindowFilter :=
  let '(kept, s) :=
    if (Z.of_nat (length (value_deque f)) <? window_size f)%Z
    then (value_deque f, running_sum f)
    else match value_deque f with
         | [] => ([], running_sum f)
         | oldest :: rest => (rest, running_sum f - oldest)
         end in
  let held := kept ++ [new_sample] in
  let s' := s + new_sample in
  (s' / Q2Qc (inject_Z (Z.of_nat (length held))),
   mkMovingWindowFilter (window_size f) held s').

End MovingWindow.

(** ** The robot interface *)

(** Orientation quaternion, as [GetBaseOrientation] returns it. *)
Definition Quaternion : Type := (Qc * Qc * Qc * Qc)%type.

(** What the estimator keeps of its robot: the nominal control period and
    the quaternion conversion of the physics client.
    [getMatrixFromQuaternion] returns nine scalars which [update] reshapes
    to (3, 3); the field gives that matrix. *)
Record Robot : Type := mkRobot {
  time_step : Qc;
  getMatrixFromQuaternion : Quaternion -> Mat3
}.

(** What the getters of the robot return during one call of [update]. *)
Record Sensors : Type := mkSensors {
  GetBaseAcceleration : Vec3;
  GetBaseOrientation : Quaternion;
  GetFootContacts : list bool;
  ComputeJacobian : nat -> list (list Qc);
  GetMotorVelocities : list Qc
}.

(** ** numpy on sequences of unknown length *)

(** [l[a:b]] for [0 <= a <= b]. *)
Definition slice {A : Type} (l : list A) (a b : nat) : list A :=
  firstn (b - a) (skipn a l).

(** Inner product of two one-dimensional arrays; the lengths must agree. *)
Fixpoint dot1 (a b : list Qc) : option Qc :=
  match a, b with
  | [], [] => Some 0
  | p :: a', q :: b' => r <- dot1 a' b' ;; Some (p * q + r)
  | _, _ => None
  end.

(** [m.dot(v)] for a two-dimensional [m] given by its rows. *)
Fixpoint np_dot (m : list (list Qc)) (v : list Qc) : option (list Qc) :=
  match m with
  | [] => Some []
  | row :: m' => p <- dot1 row v ;; rest <- np_dot m' v ;; Some (p :: rest)
  end.

(** A one-dimensional array seen as a 3-vector; [rot_mat.dot] accepts no
    other length. *)
Definition as_vec3 (l : list Qc) : option Vec3 :=
  match l with
  | [a; b; c] => Some (mkVec3 a b c)
  | _ => None
  end.

(** [np.mean(vs, axis=0)] for a list of 3-vectors: the sum of the vectors
    divided by their number. *)
Definition np_mean (vs : list Vec3) : Vec3 :=
  vdiv (fold_left vadd vs zeros3) (Q2Qc (inject_Z (Z.of_nat (length vs)))).

(** ** The estimator *)

Import MovingWindow.

Record VelocityEstimator : Type := mkVelocityEstimator {
  robot : Robot;
  filter : Kalman.KalmanFilter;
  _initial_variance : Qc;
  _window_size : Z;
  moving_window_filter_x : MovingWindowFilter;
  moving_window_filter_y : MovingWindowFilter;
  moving_window_filter_z : MovingWindowFilter;
  _estimated_velocity : Vec3;
  _last_timestamp : Qc
}.

(** The default arguments of the constructor. *)
Definition default_variance : Qc := Q2Qc (1 # 10).
Definition default_window : Z := 120.

(** [VelocityEstimator.__init__] *)
Definition __init__ (robot : Robot)
    (accelerometer_variance sensor_variance initial_variance : Qc)
    (moving_window_filter_size : Z) : option VelocityEstimator :=
  let flt :=
    Kalman.mkKalmanFilter
      zeros3
      (mscale eye3 initial_variance)
      (mscale eye3 accelerometer_variance)
      (mscale eye3 sensor_variance)
      eye3 eye3 eye3 in
  fx <- MovingWindow.new moving_window_filter_size ;;
  fy <- MovingWindow.new moving_window_filter_size ;;
  fz <- MovingWindow.new moving_window_filter_size ;;
  Some (mkVelocityEstimator robot flt initial_variance
          moving_window_filter_size fx fy fz zeros3 0).

(** [VelocityEstimator.reset] *)
Definition reset (self : VelocityEstimator) : option VelocityEstimator :=
  let flt :=
    Kalman.set_x_P (filter self) zeros3
      (mscale eye3 (_initial_variance self)) in
  fx <- MovingWindow.new (_window_size self) ;;
  fy <- MovingWindow.new (_window_size self) ;;
  fz <- MovingWindow.new (_window_size self) ;;
  Some (mkVelocityEstimator (robot self) flt (_initial_variance self)
          (_window_size self) fx fy fz (_estimated_velocity self) 0).

Definition set_last_timestamp (self : VelocityEstimator) (t : Qc)
  : VelocityEstimator :=
  mkVelocityEstimator (robot self) (filter self) (_initial_variance self)
    (_window_size self) (moving_window_filter_x self)
    (moving_window_filter_y self) (moving_window_filter_z self)
    (_estimated_velocity self) t.

(** [VelocityEstimator._compute_delta_time]: the elapsed time and the
    estimator with its timestamp advanced. *)
Definition _compute_delta_time (self : VelocityEstimator) (current_time : Qc)
  : Qc * VelocityEstimator :=
  let delta_time_s :=
    if Qc_eq_dec (_last_timestamp self) 0
    then time_step (robot self)
    else current_time - _last_timestamp self in
  (delta_time_s, set_last_timestamp self current_time).

(** The constant added to the rotated accelerometer reading. *)
Definition gravity_term : Vec3 := mkVec3 0 0 (- Q2Qc (98 # 10)).

(** [rot_mat.dot(sensor_acc) + np.array([0., 0., -9.8])] *)
Definition calibrated_acc (rot_mat : Mat3) (sensor_acc : Vec3) : Vec3 :=
  vadd (mvec rot_mat sensor_acc) gravity_term.

(** One turn of the loop over the legs: the list of observed velocities
    after leg [leg_id]. *)
Definition observe_leg (s : Sensors) (rot_mat : Mat3)
    (observed_velocities : list Vec3) (leg_id : nat) : option (list Vec3) :=
  contact <- nth_error (GetFootContacts s) leg_id ;;
  if (contact : bool) then
    let jacobian := ComputeJacobian s leg_id in
    let joint_velocities :=
      slice (GetMotorVelocities s) (leg_id * 3) ((leg_id + 1) * 3) in
    leg_velocity_in_base_frame <- np_dot jacobian joint_velocities ;;
    base_velocity_in_base_frame <-
      as_vec3 (map Qcopp (firstn 3 leg_velocity_in_base_frame)) ;;
    Some (observed_velocities ++ [mvec rot_mat base_velocity_in_base_frame])
  else Some observed_velocities.

(** The loop [for leg_id in range(4)]. *)
Definition observe_legs (s : Sensors) (rot_mat : Mat3) : option (list Vec3) :=
  fold_left
    (fun acc leg_id => obs <- acc ;; observe_leg s rot_mat obs leg_id)
    (seq 0 4) (Some []).

(** The correction of the predicted filter by the contact legs. *)
Definition correct (flt : Kalman.KalmanFilter) (observed_velocities : list Vec3)
  : option Kalman.KalmanFilter :=
  match observed_velocities with
  | [] => Some flt
  | _ :: _ => Kalman.update flt (np_mean observed_velocities)
  end.

(** The tail of [update]: the three moving averages and the cached
    estimate. *)
Definition smooth (self : VelocityEstimator) (flt : Kalman.KalmanFilter)
  : VelocityEstimator :=
  let '(vel_x, fx) :=
    calculate_average (moving_window_filter_x self) (vx (Kalman.x flt)) in
  let '(vel_y, fy) :=
    calculate_average (moving_window_filter_y self) (vy (Kalman.x flt)) in
  let '(vel_z, fz) :=
    calculate_average (moving_window_filter_z self) (vz (Kalman.x flt)) in
  mkVelocityEstimator (robot self) flt (_initial_variance self)
    (_window_size self) fx fy fz (mkVec3 vel_x vel_y vel_z)
    (_last_timestamp self).

(** Lines 100-124 of [update]: the correction by the contact legs, then the
    smoothing. *)
Definition correct_and_smooth (self : VelocityEstimator) (s : Sensors)
    (rot_mat : Mat3) (predicted : Kalman.KalmanFilter)
  : option VelocityEstimator :=
  observed_velocities <- observe_legs s rot_mat ;;
  corrected <- correct predicted observed_velocities ;;
  Some (smooth self corrected).

(** [VelocityEstimator.update] *)
Definition update (self : VelocityEstimator) (current_time : Qc) (s : Sensors)
  : option VelocityEstimator :=
  let '(delta_time_s, self) := _compute_delta_time self current_time in
  let sensor_acc := GetBaseAcceleration s in
  let base_orientation := GetBaseOrientation s in
  let rot_mat := getMatrixFromQuaternion (robot self) base_orientation in
  let acc := calibrated_acc rot_mat sensor_acc in
  let predicted := Kalman.predict (filter self) (vscale acc delta_time_s) in
  correct_and_smooth self s rot_mat predicted.

(** The property [estimated_velocity], as a value. *)
Definition estimated_velocity (self : VelocityEstimator) : Vec3 :=
  _estimated_velocity self.

(** A control loop: [update] once per tick, in order; an exception ends
    the loop. *)
Fixpoint run (self : VelocityEstimator) (ticks : list (Qc * Sensors))
  : option VelocityEstimator :=
  match ticks with
  | [] => Some self
  | (t, s) :: rest => self' <- update self t s ;; run self' rest
  end.

(** The same loop, collecting what [estimated_velocity] returns after each
    tick. *)
Fixpoint estimates (self : VelocityEstimator) (ticks : list (Qc * Sensors))
  : option (list Vec3) :=
  match ticks with
  | [] => Some []
  | (t, s) :: rest =>
      self' <- update self t s ;;
      vs <- estimates self' rest ;;
      Some (estimated_velocity self' :: vs)
  end.

(** The states an estimator built as [e0] can be in: any number of
    [update] and [reset] calls later. *)
Inductive reachable (e0 : VelocityEstimator) : VelocityEstimator -> Prop :=
| reach_init : reachable e0 e0
| reach_update e t s e' :
    reachable e0 e -> update e t s = Some e' -> reachable e0 e'
| reach_reset e e' :
    reachable e0 e -> reset e = Some e' -> reachable e0 e'.

(** What is fixed at construction: robot, initial variance, window size and
    the filter's Q, R, H, F, B. *)
Definition configuration (self : VelocityEstimator) :=
  (robot self, _initial_variance self, _window_size self,
   Kalman.parameters (filter self)).

(** Filter velocity, covariance, the three smoothing buffers and the
    timestamp. *)
Definition estimation_state (self : VelocityEstimator) :=
  (Kalman.x (filter self), Kalman.P (filter self),
   moving_window_filter_x self, moving_window_filter_y self,
   moving_window_filter_z self, _last_timestamp self).

(** Equality of 3-vectors, decided on the values of the fractions. *)
Definition vec3_eqb (a b : Vec3) : bool :=
  Qeq_bool (this (vx a)) (this (vx b)) &&
  Qeq_bool (this (vy a)) (this (vy b)) &&
  Qeq_bool (this (vz a)) (this (vz b)).

(** ** The statements of the specification, in its own words *)

Module Spec.

(** Section 4.2, step 4: the velocity a contact leg yields, minus Jacobian
    times joint velocities, rotated into the reference frame. *)
Definition leg_estimate (rotation : Mat3) (jacobian : Mat3)
    (joint_velocities : Vec3) : Vec3 :=
  mvec rotation (vneg (mvec jacobian joint_velocities)).

Definition sum_list (l : list Qc) : Qc := fold_right Qcplus 0 l.

Definition count (l : list Vec3) : Qc :=
  Q2Qc (inject_Z (Z.of_nat (length l))).

(** Section 4.2, step 5: the unweighted arithmetic mean, axis by axis. *)
Definition arithmetic_mean (l : list Vec3) : Vec3 :=
  mkVec3 (sum_list (map vx l) / count l)
         (sum_list (map vy l) / count l)
         (sum_list (map vz l) / count l).

(** The legs in contact, in leg order. *)
Definition contact_legs (contacts : list bool) : list nat :=
  List.filter (fun leg => nth leg contacts false) (seq 0 4).

(** The measurement of one tick: the mean of the estimates of the legs
    in contact. *)
Definition measurement (rotation : Mat3) (contacts : list bool)
    (jacobian : nat -> Mat3) (joint_velocities : nat -> Vec3) : Vec3 :=
  arithmetic_mean
    (map (fun leg => leg_estimate rotation (jacobian leg) (joint_velocities leg))
         (contact_legs contacts)).

(** Claim C2 as the specification words it: the gravity vector, 9.8 pointing
    down, subtracted from the rotated reading. *)
Definition gravity_down : Vec3 := mkVec3 0 0 (- Q2Qc (98 # 10)).

Definition calibrated_by_subtraction (rotation : Mat3) (a_sensor : Vec3)
  : Vec3 :=
  vsub (mvec rotation a_sensor) gravity_down.

(** Pure dead reckoning over a span of ticks: the filter only ever
    predicted, each time with the calibrated acceleration times the elapsed
    time of that tick. *)
Fixpoint dead_reckoning (rob : Robot) (flt : Kalman.KalmanFilter)
    (last_timestamp : Qc) (ticks : list (Qc * Sensors)) : Kalman.KalmanFilter :=
  match ticks with
  | [] => flt
  | (t, s) :: rest =>
      let elapsed :=
        if Qc_eq_dec last_timestamp 0 then time_step rob
        else t - last_timestamp in
      let rotation := getMatrixFromQuaternion rob (GetBaseOrientation s) in
      let acceleration := calibrated_acc rotation (GetBaseAcceleration s) in
      dead_reckoning rob (Kalman.predict flt (vscale acceleration elapsed))
        t rest
  end.

End Spec.

(** What the estimator needs of a leg in contact: a Jacobian that is a
    matrix with three columns and at least three rows, of which [jac] is the
    first three, and three motor velocities [qd] at the leg's place. *)
Definition rows_of (m : Mat3) : list (list Qc) :=
  [[vx (r0 m); vy (r0 m); vz (r0 m)];
   [vx (r1 m); vy (r1 m); vz (r1 m)];
   [vx (r2 m); vy (r2 m); vz (r2 m)]].

Definition entries_of (v : Vec3) : list Qc := [vx v; vy v; vz v].

Definition leg_data (s : Sensors) (leg : nat) (jac : Mat3) (qd : Vec3) : Prop :=
  Forall (fun row => length row = 3%nat) (ComputeJacobian s leg) /\
  firstn 3 (ComputeJacobian s leg) = rows_of jac /\
  slice (GetMotorVelocities s) (leg * 3) ((leg + 1) * 3) = entries_of qd.

(** The product of a row of three with a 3-vector; other rows do not
    occur. *)
Definition row_dot (v : Vec3) (row : list Qc) : Qc :=
  match row with
  | [p; q; r] => vdot (mkVec3 p q r) v
  | _ => 0
  end.

(** No foot touches the ground. *)
Definition no_contact (s : Sensors) : Prop :=
  firstn 4 (GetFootContacts s) = [false; false; false; false].

(** A tick of the scenario of section 8: zero calibrated acceleration and a
    measurement from the contact legs equal to (1, 0, 0). *)
Definition scenario_tick (rob : Robot) (tick : Qc * Sensors) : Prop :=
  let s := snd tick in
  let rot_mat := getMatrixFromQuaternion rob (GetBaseOrientation s) in
  calibrated_acc rot_mat (GetBaseAcceleration s) = zeros3 /\
  exists obs, observe_legs s rot_mat = Some obs /\ obs <> [] /\
              np_mean obs = mkVec3 1 0 0.

Fixpoint strictly_increasing (l : list Qc) : Prop :=
  match l with
  | a :: ((b :: _) as rest) => a < b /\ strictly_increasing rest
  | _ => True
  end.

(** ** Arrays as objects

    A numpy array is a mutable object and an attribute holds a reference to
    it.  To speak of aliasing, the arrays live in a heap and the estimator
    object holds references; the estimator above is what one reads through
    them. *)

Module Heap.

Definition ref : Type := nat.
Definition ndarray : Type := list Qc.
Definition heap : Type := list ndarray.

(** A new array object: the next free reference and the grown heap. *)
Definition alloc (h : heap) (a : ndarray) : ref * heap :=
  (length h, h ++ [a]).

Definition load (h : heap) (r : ref) : option ndarray := nth_error h r.

(** Any mutation in place of the array at [r] ([a[i] = v], [a += b],
    [a[:] = b], ...): the object stays, its contents become [a]. *)
Fixpoint mutate (h : heap) (r : ref) (a : ndarray) : option heap :=
  match h, r with
  | [], _ => None
  | _ :: h', O => Some (a :: h')
  | b :: h', S r' => h'' <- mutate h' r' a ;; Some (b :: h'')
  end.

(** [ndarray.copy()] *)
Definition copy (h : heap) (r : ref) : option (ref * heap) :=
  a <- load h r ;; Some (alloc h a).

End Heap.

Import Heap.

(** The estimator object: array-valued attributes are references, the rest
    are the values of the record [VelocityEstimator]. *)
Record EstimatorObject : Type := mkEstimatorObject {
  o_robot : Robot;
  o_filter_x : ref;
  o_filter_P : ref;
  o_filter_Q : ref;
  o_filter_R : ref;
  o_filter_H : ref;
  o_filter_F : ref;
  o_filter_B : ref;
  o_initial_variance : Qc;
  o_window_size : Z;
  o_moving_window_filter_x : MovingWindowFilter;
  o_moving_window_filter_y : MovingWindowFilter;
  o_moving_window_filter_z : MovingWindowFilter;
  o_estimated_velocity : ref;
  o_last_timestamp : Qc
}.

Definition as_mat3 (l : list Qc) : option Mat3 :=
  match l with
  | [a; b; c; d; e; f; g; h; i] =>
      Some (mkMat3 (mkVec3 a b c) (mkVec3 d e f) (mkVec3 g h i))
  | _ => None
  end.

Definition load_vec3 (h : heap) (r : ref) : option Vec3 :=
  a <- load h r ;; as_vec3 a.

Definition load_mat3 (h : heap) (r : ref) : option Mat3 :=
  a <- load h r ;; as_mat3 a.

(** The whole internal state of the object, read through its references. *)
Definition state_of (h : heap) (o : EstimatorObject) : option VelocityEstimator :=
  x <- load_vec3 h (o_filter_x o) ;;
  P <- load_mat3 h (o_filter_P o) ;;
  Q <- load_mat3 h (o_filter_Q o) ;;
  R <- load_mat3 h (o_filter_R o) ;;
  H <- load_mat3 h (o_filter_H o) ;;
  F <- load_mat3 h (o_filter_F o) ;;
  B <- load_mat3 h (o_filter_B o) ;;
  v <- load_vec3 h (o_estimated_velocity o) ;;
  Some (mkVelocityEstimator (o_robot o)
          (Kalman.mkKalmanFilter x P Q R H F B)
          (o_initial_variance o) (o_window_size o)
          (o_moving_window_filter_x o) (o_moving_window_filter_y o)
          (o_moving_window_filter_z o) v (o_last_timestamp o)).

(** The property [estimated_velocity] on the object:
    [return self._estimated_velocity.copy()]. *)
Definition get_estimated_velocity (h : heap) (o : EstimatorObject)
  : option (ref * heap) :=
  copy h (o_estimated_velocity o).

(** An accessor that would hand out the attribute itself, for contrast. *)
Definition get_alias (h : heap) (o : EstimatorObject) : option (ref * heap) :=
  _ <- load h (o_estimated_velocity o) ;; Some (o_estimated_velocity o, h).

(** Two snapshots that agree on what [update] reads: the accelerometer, the
    orientation, the first four contact flags and, for each of the four legs
    whose flag is set, the Jacobian and the leg's slice of the motor
    velocities. *)
Definition same_reading (s s' : Sensors) : Prop :=
  GetBaseAcceleration s = GetBaseAcceleration s' /\
  GetBaseOrientation s = GetBaseOrientation s' /\
  firstn 4 (GetFootContacts s) = firstn 4 (GetFootContacts s') /\
  forall leg, (leg < 4)%nat -> nth leg (GetFootContacts s) false = true ->
    ComputeJacobian s leg = ComputeJacobian s' leg /\
    slice (GetMotorVelocities s) (leg * 3) ((leg + 1) * 3) =
    slice (GetMotorVelocities s') (leg * 3) ((leg + 1) * 3).

(** The estimator with another cached estimate. *)
Definition set_estimated_velocity (self : VelocityEstimator) (v : Vec3)
  : VelocityEstimator :=
  mkVelocityEstimator (robot self) (filter self) (_initial_variance self)
    (_window_size self) (moving_window_filter_x self)
    (moving_window_filter_y self) (moving_window_filter_z self)
    v (_last_timestamp self).

(** A heap that still holds every array of another one. *)
Definition keeps (h h' : heap) : Prop :=
  forall r a, load h r = Some a -> load h' r = Some a.

(** ** A concrete robot, for examples *)

Module Example.

(** The rotation matrix of a quaternion (x, y, z, w), the usual
    conversion, scaled by the squared norm. *)
Definition matrix_of_quaternion (q : Quaternion) : Mat3 :=
  let '(qx, qy, qz, qw) := q in
  let d := qx * qx + qy * qy + qz * qz + qw * qw in
  let k := (1 + 1) / d in
  let xs := qx * k in let ys := qy * k in let zs := qz * k in
  let wx := qw * xs in let wy := qw * ys in let wz := qw * zs in
  let xx := qx * xs in let xy := qx * ys in let xz := qx * zs in
  let yy := qy * ys in let yz := qy * zs in let zz := qz * zs in
  mkMat3 (mkVec3 (1 - (yy + zz)) (xy - wz) (xz + wy))
         (mkVec3 (xy + wz) (1 - (xx + zz)) (yz - wx))
         (mkVec3 (xz - wy) (yz + wx) (1 - (xx + yy))).

(** A robot with a control period of 2 ms. *)
Definition a1 : Robot := mkRobot (Q2Qc (1 # 500)) matrix_of_quaternion.

Definition level : Quaternion := (0, 0, 0, 1).

(** The estimator the constructor builds on [a1] with its default
    arguments. *)
Definition fresh_estimator : VelocityEstimator :=
  mkVelocityEstimator a1
    (Kalman.mkKalmanFilter zeros3 (mscale eye3 default_variance)
       (mscale eye3 default_variance) (mscale eye3 default_variance)
       eye3 eye3 eye3)
    default_variance default_window
    (mkMovingWindowFilter default_window [] 0)
    (mkMovingWindowFilter default_window [] 0)
    (mkMovingWindowFilter default_window [] 0) zeros3 0.

Definition minus_identity : list (list Qc) :=
  [[- (1); 0; 0]; [0; - (1); 0]; [0; 0; - (1)]].

(** Upright and at rest in the air: the accelerometer reads 9.8 upwards and
    no foot touches the ground. *)
Definition airborne : Sensors :=
  mkSensors (mkVec3 0 0 (Q2Qc (98 # 10))) level
    [false; false; false; false] (fun _ => minus_identity)
    [0; 0; 0; 0; 0; 0; 0; 0; 0; 0; 0; 0].

(** Free fall: the accelerometer reads zero, no foot touches the ground. *)
Definition falling : Sensors :=
  mkSensors zeros3 level
    [false; false; false; false] (fun _ => minus_identity)
    [0; 0; 0; 0; 0; 0; 0; 0; 0; 0; 0; 0].

(** The first leg on the ground, its foot moving backwards at unit speed
    in the base frame. *)
Definition walking : Sensors :=
  mkSensors (mkVec3 0 0 (Q2Qc (98 # 10))) level
    [true; false; false; false] (fun _ => minus_identity)
    [1; 0; 0; 0; 0; 0; 0; 0; 0; 0; 0; 0].

(** Two legs on the ground. *)
Definition trotting : Sensors :=
  mkSensors (mkVec3 0 0 (Q2Qc (98 # 10))) level
    [true; false; false; true] (fun _ => minus_identity)
    [1; 0; 0; 0; 0; 0; 0; 0; 0; 1 + 1 + 1; 1 + 1; 0].

(** The data of [trotting], leg by leg. *)
Definition minus_identity_matrix : Mat3 :=
  mkMat3 (mkVec3 (- (1)) 0 0) (mkVec3 0 (- (1)) 0) (mkVec3 0 0 (- (1))).

Definition trotting_velocities (leg : nat) : Vec3 :=
  match leg with
  | 0%nat => mkVec3 1 0 0
  | 3%nat => mkVec3 (1 + 1 + 1) (1 + 1) 0
  | _ => zeros3
  end.

Definition ms (n : Z) : Qc := Q2Qc (n # 1000).

(** [trotting] with other data for the two legs in the air, more contact
    flags and more motor velocities than the estimator looks at. *)
Definition trotting_noisy : Sensors :=
  mkSensors (mkVec3 0 0 (Q2Qc (98 # 10))) level
    [true; false; false; true; true]
    (fun leg => match leg with
                | 1%nat => []
                | 2%nat => [[1; 1]]
                | _ => minus_identity
                end)
    [1; 0; 0; 1; 1; 1; 1; 1; 1; 1 + 1 + 1; 1 + 1; 0; 1; 1].

(** Three contact flags only. *)
Definition three_flags : Sensors :=
  mkSensors (mkVec3 0 0 (Q2Qc (98 # 10))) level
    [false; false; false] (fun _ => minus_identity)
    [0; 0; 0; 0; 0; 0; 0; 0; 0; 0; 0; 0].

(** The first leg on the ground with a Jacobian of two rows. *)
Definition two_rows : Sensors :=
  mkSensors (mkVec3 0 0 (Q2Qc (98 # 10))) level
    [true; false; false; false]
    (fun _ => [[- (1); 0; 0]; [0; - (1); 0]])
    [1; 0; 0; 0; 0; 0; 0; 0; 0; 0; 0; 0].

(** The last leg on the ground and eleven motor velocities. *)
Definition eleven_motors : Sensors :=
  mkSensors (mkVec3 0 0 (Q2Qc (98 # 10))) level
    [false; false; false; true] (fun _ => minus_identity)
    [0; 0; 0; 0; 0; 0; 0; 0; 0; 1; 0].

Definition five_ticks : list (Qc * Sensors) :=
  [(ms 2, walking); (ms 4, walking); (ms 6, walking); (ms 8, walking);
   (ms 10, walking)].

(** An estimator object on a heap of eight arrays. *)
Definition some_heap : heap :=
  [[0; 0; 0];
   [1; 0; 0; 0; 1; 0; 0; 0; 1];
   [1; 0; 0; 0; 1; 0; 0; 0; 1];
   [1; 0; 0; 0; 1; 0; 0; 0; 1];
   [1; 0; 0; 0; 1; 0; 0; 0; 1];
   [1; 0; 0; 0; 1; 0; 0; 0; 1];
   [1; 0; 0; 0; 1; 0; 0; 0; 1];
   [1; 1 + 1; 1 + 1 + 1]].

Definition some_object : EstimatorObject :=
  mkEstimatorObject a1 0%nat 1%nat 2%nat 3%nat 4%nat 5%nat 6%nat 1 120%Z
    (mkMovingWindowFilter 120%Z [] 0) (mkMovingWindowFilter 120%Z [] 0)
    (mkMovingWindowFilter 120%Z [] 0) 7%nat 0.

End Example.

(** * Properties *)

(** ** Bookkeeping lemmas *)

Lemma bind_some {A B : Type} (m : option A) (k : A -> option B) (b : B) :
  (x <- m ;; k x) = Some b -> exists a, m = Some a /\ k a = Some b.
Proof.
  destruct m as [a|]; simpl; intro E; [exists a; split; trivial | discriminate].
Qed.

Lemma returns_some {A : Type} (m : option A) :
  returns m = true -> exists a, m = Some a.
Proof. destruct m as [a|]; [now exists a | discriminate]. Qed.

Lemma Qc_neq_by_value (a b : Qc) : Qeq_bool (this a) (this b) = false -> a <> b.
Proof.
  intros E Heq. subst b. rewrite Qeq_bool_refl in E. discriminate.
Qed.

(** [update], with the elapsed time and the timestamp written out. *)
Lemma update_unfold (self : VelocityEstimator) (t : Qc) (s : Sensors) :
  update self t s =
  let rot_mat := getMatrixFromQuaternion (robot self) (GetBaseOrientation s) in
  correct_and_smooth (set_last_timestamp self t) s rot_mat
    (Kalman.predict (filter self)
       (vscale (calibrated_acc rot_mat (GetBaseAcceleration s))
               (fst (_compute_delta_time self t)))).
Proof. reflexivity. Qed.

Lemma smooth_filter self flt : filter (smooth self flt) = flt.
Proof.
  unfold smooth.
  destruct (calculate_average (moving_window_filter_x self) _).
  destruct (calculate_average (moving_window_filter_y self) _).
  destruct (calculate_average (moving_window_filter_z self) _).
  reflexivity.
Qed.

Lemma smooth_frame self flt :
  robot (smooth self flt) = robot self /\
  _initial_variance (smooth self flt) = _initial_variance self /\
  _window_size (smooth self flt) = _window_size self /\
  _last_timestamp (smooth self flt) = _last_timestamp self.
Proof.
  unfold smooth.
  destruct (calculate_average (moving_window_filter_x self) _).
  destruct (calculate_average (moving_window_filter_y self) _).
  destruct (calculate_average (moving_window_filter_z self) _).
  simpl. auto.
Qed.

Lemma smooth_robot self flt : robot (smooth self flt) = robot self.
Proof. apply smooth_frame. Qed.

Lemma smooth_last_timestamp self flt :
  _last_timestamp (smooth self flt) = _last_timestamp self.
Proof. apply smooth_frame. Qed.

Lemma smooth_frame_delta self flt t :
  fst (_compute_delta_time (smooth self flt) t) =
  fst (_compute_delta_time self t).
Proof.
  unfold _compute_delta_time. simpl.
  now rewrite smooth_robot, smooth_last_timestamp.
Qed.

(** What [update] leaves in place when it returns. *)
Lemma update_some self t s e' :
  update self t s = Some e' ->
  exists flt, e' = smooth (set_last_timestamp self t) flt.
Proof.
  rewrite update_unfold. cbv zeta. unfold correct_and_smooth.
  intro E. apply bind_some in E as (obs & _ & E).
  apply bind_some in E as (flt & _ & E).
  injection E as <-. now exists flt.
Qed.

Lemma update_last_timestamp self t s e' :
  update self t s = Some e' -> _last_timestamp e' = t.
Proof.
  intro E. apply update_some in E as (flt & ->).
  now destruct (smooth_frame (set_last_timestamp self t) flt) as (_ & _ & _ & ->).
Qed.

Lemma update_robot self t s e' :
  update self t s = Some e' -> robot e' = robot self.
Proof.
  intro E. apply update_some in E as (flt & ->).
  now destruct (smooth_frame (set_last_timestamp self t) flt) as (-> & _).
Qed.

Lemma reset_some self e' :
  reset self = Some e' ->
  exists f,
    MovingWindow.new (_window_size self) = Some f /\
    e' = mkVelocityEstimator (robot self)
           (Kalman.set_x_P (filter self) zeros3
              (mscale eye3 (_initial_variance self)))
           (_initial_variance self) (_window_size self) f f f
           (_estimated_velocity self) 0.
Proof.
  unfold reset. destruct (MovingWindow.new (_window_size self)) as [f|]; simpl.
  - intro E. injection E as <-. exists f. auto.
  - discriminate.
Qed.

Lemma new_some window f :
  MovingWindow.new window = Some f ->
  (0 < window)%Z /\ f = mkMovingWindowFilter window [] 0.
Proof.
  unfold MovingWindow.new. destruct (0 <? window)%Z eqn:E; [|discriminate].
  intro Hf. injection Hf as <-. split; [now apply Z.ltb_lt | reflexivity].
Qed.

Lemma new_positive window :
  (0 < window)%Z ->
  MovingWindow.new window = Some (mkMovingWindowFilter window [] 0).
Proof.
  intro Hw. unfold MovingWindow.new. apply Z.ltb_lt in Hw. now rewrite Hw.
Qed.

Lemma init_some rob a sv iv w e :
  __init__ rob a sv iv w = Some e ->
  (0 < w)%Z /\
  e = mkVelocityEstimator rob
        (Kalman.mkKalmanFilter zeros3 (mscale eye3 iv) (mscale eye3 a)
           (mscale eye3 sv) eye3 eye3 eye3)
        iv w (mkMovingWindowFilter w [] 0) (mkMovingWindowFilter w [] 0)
        (mkMovingWindowFilter w [] 0) zeros3 0.
Proof.
  unfold __init__. destruct (MovingWindow.new w) as [f|] eqn:Hf; simpl.
  - apply new_some in Hf as (Hw & ->). intro E. injection E as <-. auto.
  - discriminate.
Qed.

Lemma fresh_estimator_built :
  __init__ Example.a1 default_variance default_variance default_variance
    default_window = Some Example.fresh_estimator.
Proof. reflexivity. Qed.

Lemma vec3_eqb_eq (a b : Vec3) : vec3_eqb a b = true -> a = b.
Proof.
  destruct a as [ax ay az], b as [bx b_y bz]. unfold vec3_eqb. simpl.
  intro E. apply andb_prop in E as [E Ez]. apply andb_prop in E as [Ex Ey].
  apply Qeq_bool_iff in Ex, Ey, Ez.
  apply Qc_is_canon in Ex, Ey, Ez. now subst.
Qed.

Lemma vec3_eqb_neq (a b : Vec3) : vec3_eqb a b = false -> a <> b.
Proof.
  intros E Heq. subst b. unfold vec3_eqb in E.
  rewrite !Qeq_bool_refl in E. discriminate.
Qed.

(** ** Feet off the ground *)

Lemma no_contact_observe_legs s rot_mat :
  no_contact s -> observe_legs s rot_mat = Some [].
Proof.
  unfold no_contact, observe_legs, observe_leg.
  destruct (GetFootContacts s) as [|c0 [|c1 [|c2 [|c3 rest]]]];
    simpl; try discriminate.
  intro E. injection E as -> -> -> ->. reflexivity.
Qed.

Lemma update_no_contact self t s :
  no_contact s ->
  update self t s =
  Some (smooth (set_last_timestamp self t)
          (Kalman.predict (filter self)
             (vscale
                (calibrated_acc
                   (getMatrixFromQuaternion (robot self) (GetBaseOrientation s))
                   (GetBaseAcceleration s))
                (fst (_compute_delta_time self t))))).
Proof.
  intro Hs. rewrite update_unfold. cbv zeta. unfold correct_and_smooth.
  rewrite (no_contact_observe_legs _ _ Hs). reflexivity.
Qed.

Lemma run_no_contact ticks : forall self,
  Forall (fun tick => no_contact (snd tick)) ticks ->
  exists self',
    run self ticks = Some self' /\
    filter self' =
      Spec.dead_reckoning (robot self) (filter self) (_last_timestamp self)
        ticks.
Proof.
  induction ticks as [|[t s] rest IH]; intros self Hall.
  - exists self. split; reflexivity.
  - inversion Hall as [|? ? Hs Hrest]; subst. simpl in Hs.
    simpl run. rewrite (update_no_contact self t s Hs). simpl bind.
    match goal with |- context [run ?e rest] => set (e1 := e) end.
    destruct (IH e1 Hrest) as (self' & Hrun & Hflt).
    exists self'. split; [exact Hrun|].
    rewrite Hflt. unfold e1.
    rewrite smooth_filter, smooth_robot, smooth_last_timestamp.
    reflexivity.
Qed.

(** C3.  When no foot is in contact, [update] runs the predict step and
    nothing else on the filter: it returns (no exception), and the filter it
    leaves, state and covariance, is exactly what [predict] made of the
    filter before the call.  Over any span of such ticks the filter is the
    one pure dead reckoning produces. *)
Theorem no_contact_is_pure_prediction (self : VelocityEstimator) :
  (forall t s, no_contact s ->
     exists self',
       update self t s = Some self' /\
       filter self' =
         Kalman.predict (filter self)
           (vscale
              (calibrated_acc
                 (getMatrixFromQuaternion (robot self) (GetBaseOrientation s))
                 (GetBaseAcceleration s))
              (fst (_compute_delta_time self t)))) /\
  (forall ticks, Forall (fun tick => no_contact (snd tick)) ticks ->
     exists self',
       run self ticks = Some self' /\
       filter self' =
         Spec.dead_reckoning (robot self) (filter self)
           (_last_timestamp self) ticks).
Proof.
  split.
  - intros t s Hs. eexists. split.
    + apply update_no_contact, Hs.
    + apply smooth_filter.
  - intros ticks. apply run_no_contact.
Qed.

Lemma no_contact_is_pure_prediction_witness :
  (exists e1,
     update Example.fresh_estimator (Example.ms 2) Example.falling = Some e1 /\
     filter e1 =
       Kalman.predict (filter Example.fresh_estimator)
         (vscale (calibrated_acc eye3 zeros3) (time_step Example.a1))) /\
  (exists e2,
     run Example.fresh_estimator
       [(Example.ms 2, Example.falling); (Example.ms 4, Example.airborne)]
       = Some e2 /\
     filter e2 =
       Spec.dead_reckoning Example.a1 (filter Example.fresh_estimator) 0
         [(Example.ms 2, Example.falling); (Example.ms 4, Example.airborne)]).
Proof.
  destruct (no_contact_is_pure_prediction Example.fresh_estimator)
    as [Hone Hspan].
  split.
  - destruct (Hone (Example.ms 2) Example.falling eq_refl) as (e1 & Hu & Hf).
    exists e1. split; [exact Hu | exact Hf].
  - destruct (Hspan [(Example.ms 2, Example.falling);
                     (Example.ms 4, Example.airborne)]) as (e2 & Hr & Hf).
    { repeat constructor. }
    exists e2. split; [exact Hr | exact Hf].
Defined.

(** ** Elapsed time *)

(** C4.  The first [update] after construction uses the nominal period,
    and every later call is to use [current_time] minus the timestamp of the
    call before it.  The code misses this after a call at time 0: the branch
    of [_compute_delta_time] that its comment reserves for the first
    timestamp received is taken again, because the timestamp stored by that
    call equals the unset value.  Here a fresh estimator is updated at time 0
    and then at time 1: the second call uses the nominal period and not
    1 - 0. *)
Lemma later_call_after_time_zero_counterexample :
  exists e1,
    update Example.fresh_estimator 0 Example.airborne = Some e1 /\
    fst (_compute_delta_time e1 1) = time_step Example.a1 /\
    fst (_compute_delta_time e1 1) <> 1 - 0.
Proof.
  eexists. split.
  - apply update_no_contact. reflexivity.
  - rewrite smooth_frame_delta. split.
    + reflexivity.
    + apply Qc_neq_by_value. vm_compute. reflexivity.
Qed.

(** The elapsed time as the code computes it.  [update] passes on to the
    predict step the nominal period [time_step] of the robot when the stored
    timestamp is 0, as it is after construction and after [reset]; and
    [current_time] minus the stored timestamp otherwise, the stored timestamp
    being the [current_time] of the previous call. *)
Theorem elapsed_time_rule (self : VelocityEstimator) (t : Qc) (s : Sensors) :
  let rot_mat := getMatrixFromQuaternion (robot self) (GetBaseOrientation s) in
  let acc := calibrated_acc rot_mat (GetBaseAcceleration s) in
  (_last_timestamp self = 0 ->
     update self t s =
     correct_and_smooth (set_last_timestamp self t) s rot_mat
       (Kalman.predict (filter self)
          (vscale acc (time_step (robot self))))) /\
  (_last_timestamp self <> 0 ->
     update self t s =
     correct_and_smooth (set_last_timestamp self t) s rot_mat
       (Kalman.predict (filter self)
          (vscale acc (t - _last_timestamp self)))) /\
  (forall e', update self t s = Some e' -> _last_timestamp e' = t) /\
  (forall e', reset self = Some e' -> _last_timestamp e' = 0) /\
  (forall a sv iv w e',
     __init__ (robot self) a sv iv w = Some e' -> _last_timestamp e' = 0).
Proof.
  cbv zeta. split; [|split; [|split; [|split]]].
  - intro E. rewrite update_unfold. cbv zeta. unfold _compute_delta_time.
    destruct (Qc_eq_dec (_last_timestamp self) 0); [reflexivity | contradiction].
  - intro E. rewrite update_unfold. cbv zeta. unfold _compute_delta_time.
    destruct (Qc_eq_dec (_last_timestamp self) 0); [contradiction | reflexivity].
  - intros e'. apply update_last_timestamp.
  - intros e' E. apply reset_some in E as (f & _ & ->). reflexivity.
  - intros a sv iv w e' E. apply init_some in E as (_ & ->). reflexivity.
Qed.

Lemma elapsed_time_rule_witness :
  update Example.fresh_estimator (Example.ms 2) Example.walking =
    correct_and_smooth
      (set_last_timestamp Example.fresh_estimator (Example.ms 2))
      Example.walking
      (getMatrixFromQuaternion Example.a1 Example.level)
      (Kalman.predict (filter Example.fresh_estimator)
         (vscale
            (calibrated_acc
               (getMatrixFromQuaternion Example.a1 Example.level)
               (GetBaseAcceleration Example.walking))
            (time_step Example.a1))) /\
  update (set_last_timestamp Example.fresh_estimator (Example.ms 2))
      (Example.ms 4) Example.walking =
    correct_and_smooth
      (set_last_timestamp Example.fresh_estimator (Example.ms 4))
      Example.walking
      (getMatrixFromQuaternion Example.a1 Example.level)
      (Kalman.predict (filter Example.fresh_estimator)
         (vscale
            (calibrated_acc
               (getMatrixFromQuaternion Example.a1 Example.level)
               (GetBaseAcceleration Example.walking))
            (Example.ms 4 - Example.ms 2))).
Proof.
  split.
  - destruct (elapsed_time_rule Example.fresh_estimator (Example.ms 2)
                Example.walking) as [Hfirst _].
    apply Hfirst. reflexivity.
  - destruct (elapsed_time_rule
                (set_last_timestamp Example.fresh_estimator (Example.ms 2))
                (Example.ms 4) Example.walking) as [_ [Hlater _]].
    apply Hlater. apply Qc_neq_by_value. vm_compute. reflexivity.
Defined.

(** C9.  The unset timestamp is the value 0, so an [update] made at
    [current_time] 0 stores the unset value again, and the call that follows
    it, whatever its time, takes the nominal control period for its elapsed
    time, as a first call does. *)
Theorem update_at_time_zero_stays_unset
    (self : VelocityEstimator) (s : Sensors) (e1 : VelocityEstimator) :
  update self 0 s = Some e1 ->
  _last_timestamp e1 = 0 /\
  forall t' s',
    fst (_compute_delta_time e1 t') = time_step (robot e1) /\
    update e1 t' s' =
      let rot_mat := getMatrixFromQuaternion (robot e1) (GetBaseOrientation s') in
      correct_and_smooth (set_last_timestamp e1 t') s' rot_mat
        (Kalman.predict (filter e1)
           (vscale (calibrated_acc rot_mat (GetBaseAcceleration s'))
                   (time_step (robot e1)))).
Proof.
  intro E. apply update_last_timestamp in E.
  split; [exact E|]. intros t' s'.
  assert (Hd : fst (_compute_delta_time e1 t') = time_step (robot e1)).
  { unfold _compute_delta_time. simpl. rewrite E.
    destruct (Qc_eq_dec 0 0) as [_|n]; [reflexivity | now elim n]. }
  split; [exact Hd|]. rewrite update_unfold. cbv zeta. now rewrite Hd.
Qed.

Lemma update_at_time_zero_stays_unset_witness :
  exists e1,
    update Example.fresh_estimator 0 Example.airborne = Some e1 /\
    _last_timestamp e1 = 0 /\
    fst (_compute_delta_time e1 (Example.ms 2)) = time_step (robot e1).
Proof.
  eexists. split; [apply update_no_contact; reflexivity|].
  match goal with
  | |- _last_timestamp ?e = _ /\ _ =>
      destruct (update_at_time_zero_stays_unset Example.fresh_estimator
                  Example.airborne e) as [Hts Hnext]
  end.
  - apply update_no_contact. reflexivity.
  - split; [exact Hts|]. apply (Hnext (Example.ms 2) Example.airborne).
Defined.

(** ** What [reset] leaves alone *)

(** C10.  [reset] does not assign the cached estimate: after an [update],
    a [reset] and then a read of [estimated_velocity] gives the smoothed
    value that [update] cached, whatever it is, and not the zero vector of
    the constructor. *)
Theorem reset_keeps_cached_estimate
    (self : VelocityEstimator) (t : Qc) (s : Sensors)
    (e1 e2 : VelocityEstimator) :
  update self t s = Some e1 ->
  reset e1 = Some e2 ->
  estimated_velocity e2 = estimated_velocity e1.
Proof.
  intros _ E. apply reset_some in E as (f & _ & ->). reflexivity.
Qed.

Lemma reset_keeps_cached_estimate_witness :
  exists e1 e2,
    update Example.fresh_estimator (Example.ms 2) Example.walking = Some e1 /\
    reset e1 = Some e2 /\
    estimated_velocity e2 = estimated_velocity e1 /\
    estimated_velocity e2 = mkVec3 (Q2Qc (2 # 3)) 0 0 /\
    estimated_velocity e2 <> zeros3.
Proof.
  destruct (returns_some
              (update Example.fresh_estimator (Example.ms 2) Example.walking))
    as [e1 E1]; [vm_compute; reflexivity|].
  destruct (returns_some (reset e1)) as [e2 E2].
  { assert (H : returns
                  (e <- update Example.fresh_estimator (Example.ms 2)
                          Example.walking ;; reset e) = true)
      by (vm_compute; reflexivity).
    rewrite E1 in H. exact H. }
  exists e1, e2. split; [exact E1|]. split; [exact E2|].
  pose proof (reset_keeps_cached_estimate _ _ _ _ _ E1 E2) as Hkept.
  split; [exact Hkept|]. rewrite Hkept.
  assert (H : option_map (fun e => vec3_eqb (estimated_velocity e)
                                     (mkVec3 (Q2Qc (2 # 3)) 0 0))
                (update Example.fresh_estimator (Example.ms 2)
                   Example.walking) = Some true)
    by (vm_compute; reflexivity).
  rewrite E1 in H. simpl in H. injection H as H.
  apply vec3_eqb_eq in H. rewrite H. split; [reflexivity|].
  apply vec3_eqb_neq. vm_compute. reflexivity.
Defined.

(** ** The control input of the predict step *)

(** C2, as stated, fails: in free fall (accelerometer reading zero, level
    orientation, no contact) the first [update] of a fresh estimator
    predicts with (0, 0, -9.8) times the period, a downward velocity
    increment, where the claim's R a - (0, 0, -9.8) gives an upward one. *)
Lemma gravity_subtracted_counterexample :
  exists e1,
    update Example.fresh_estimator (Example.ms 2) Example.falling = Some e1 /\
    filter e1 =
      Kalman.predict (filter Example.fresh_estimator)
        (vscale (mkVec3 0 0 (- Q2Qc (98 # 10))) (time_step Example.a1)) /\
    Kalman.x (filter e1) = mkVec3 0 0 (- Q2Qc (98 # 5000)) /\
    Kalman.x
      (Kalman.predict (filter Example.fresh_estimator)
         (vscale
            (Spec.calibrated_by_subtraction
               (getMatrixFromQuaternion Example.a1
                  (GetBaseOrientation Example.falling))
               (GetBaseAcceleration Example.falling))
            (time_step Example.a1)))
      = mkVec3 0 0 (Q2Qc (98 # 5000)) /\
    filter e1 <>
      Kalman.predict (filter Example.fresh_estimator)
        (vscale
           (Spec.calibrated_by_subtraction
              (getMatrixFromQuaternion Example.a1
                 (GetBaseOrientation Example.falling))
              (GetBaseAcceleration Example.falling))
           (time_step Example.a1)).
Proof.
  eexists. split; [apply update_no_contact; reflexivity|].
  rewrite smooth_filter.
  split; [|split; [|split]].
  - f_equal; try (apply vec3_eqb_eq; vm_compute; reflexivity).
  - apply vec3_eqb_eq. vm_compute. reflexivity.
  - apply vec3_eqb_eq. vm_compute. reflexivity.
  - intro Heq. apply (f_equal Kalman.x) in Heq.
    revert Heq. apply vec3_eqb_neq. vm_compute. reflexivity.
Qed.

(** C2, amended.  The control input of the predict step is the calibrated
    acceleration times the elapsed time, where the calibrated acceleration is
    the accelerometer reading rotated by the matrix of the orientation
    quaternion, plus the vector (0, 0, -9.8); equally, minus the vector
    (0, 0, 9.8). *)
Theorem predict_input_adds_gravity
    (self : VelocityEstimator) (t : Qc) (s : Sensors) :
  let rot_mat := getMatrixFromQuaternion (robot self) (GetBaseOrientation s) in
  let a_sensor := GetBaseAcceleration s in
  let elapsed := fst (_compute_delta_time self t) in
  update self t s =
    correct_and_smooth (set_last_timestamp self t) s rot_mat
      (Kalman.predict (filter self)
         (vscale (vadd (mvec rot_mat a_sensor) (mkVec3 0 0 (- Q2Qc (98 # 10))))
                 elapsed)) /\
  vadd (mvec rot_mat a_sensor) (mkVec3 0 0 (- Q2Qc (98 # 10))) =
  vsub (mvec rot_mat a_sensor) (mkVec3 0 0 (Q2Qc (98 # 10))).
Proof.
  cbv zeta. split.
  - apply update_unfold.
  - unfold vadd, vsub. simpl. f_equal; ring.
Qed.

(** ** Construction *)

(** C7, as stated, fails: an accelerometer variance of -1, a sensor variance
    of 0 and an initial variance of -1/10 are accepted, and the estimator
    built takes an [update]. *)
Lemma nonpositive_variance_counterexample :
  - (1) <= 0 /\ 0 <= 0 /\ - Q2Qc (1 # 10) <= 0 /\
  exists e e',
    __init__ Example.a1 (- (1)) 0 (- Q2Qc (1 # 10)) 120 = Some e /\
    update e (Example.ms 2) Example.walking = Some e'.
Proof.
  split; [discriminate|]. split; [discriminate|]. split; [discriminate|].
  unfold __init__. rewrite (new_positive 120) by lia. cbn [bind].
  match goal with
  | |- exists e e', Some ?built = Some e /\ _ =>
      destruct (returns_some
                  (update built (Example.ms 2) Example.walking)) as [e' E];
        [vm_compute; reflexivity|];
      exists built, e'; split; [reflexivity | exact E]
  end.
Qed.

(** C7, amended.  Construction is rejected exactly when the size of the
    moving window is not positive.  The three variances are not checked:
    with a positive window size any values of them, non-positive ones
    included, give an estimator whose P, Q and R are the identity times the
    initial, accelerometer and sensor variance, whose H, F and B are the
    identity, and whose velocity is zero. *)
Theorem construction_checks_window_only
    (rob : Robot) (a sv iv : Qc) (w : Z) :
  ((w <= 0)%Z -> __init__ rob a sv iv w = None) /\
  ((0 < w)%Z ->
     exists e,
       __init__ rob a sv iv w = Some e /\
       Kalman.x (filter e) = zeros3 /\
       Kalman.P (filter e) = mscale eye3 iv /\
       Kalman.Q (filter e) = mscale eye3 a /\
       Kalman.R (filter e) = mscale eye3 sv /\
       Kalman.H (filter e) = eye3 /\
       Kalman.F (filter e) = eye3 /\
       Kalman.B (filter e) = eye3).
Proof.
  split.
  - intro Hw. unfold __init__, MovingWindow.new.
    destruct (0 <? w)%Z eqn:E; [apply Z.ltb_lt in E; lia | reflexivity].
  - intro Hw. unfold __init__. rewrite (new_positive w Hw). simpl.
    eexists. split; [reflexivity|]. simpl. repeat (split; [reflexivity|]).
    reflexivity.
Qed.

Lemma construction_checks_window_only_witness :
  __init__ Example.a1 default_variance default_variance default_variance 0
    = None /\
  exists e,
    __init__ Example.a1 (- (1)) 0 (- Q2Qc (1 # 10)) 120 = Some e /\
    Kalman.Q (filter e) = mscale eye3 (- (1)).
Proof.
  split.
  - apply (construction_checks_window_only Example.a1 default_variance
             default_variance default_variance 0). lia.
  - destruct (construction_checks_window_only Example.a1 (- (1)) 0
                (- Q2Qc (1 # 10)) 120) as [_ Hok].
    destruct Hok as (e & He & _ & _ & HQ & _); [lia|].
    exists e. split; [exact He | exact HQ].
Defined.

(** ** What stays as constructed *)

Lemma predict_parameters k u :
  Kalman.parameters (Kalman.predict k u) = Kalman.parameters k.
Proof. reflexivity. Qed.

Lemma kalman_update_parameters k z k' :
  Kalman.update k z = Some k' -> Kalman.parameters k' = Kalman.parameters k.
Proof.
  unfold Kalman.update. intro E. apply bind_some in E as (SI & _ & E).
  injection E as <-. reflexivity.
Qed.

Lemma correct_parameters flt obs flt' :
  correct flt obs = Some flt' ->
  Kalman.parameters flt' = Kalman.parameters flt.
Proof.
  destruct obs as [|v obs]; simpl.
  - intro E. now injection E as <-.
  - apply kalman_update_parameters.
Qed.

Lemma smooth_configuration self flt :
  configuration (smooth self flt) =
  (robot self, _initial_variance self, _window_size self,
   Kalman.parameters flt).
Proof.
  unfold configuration. rewrite smooth_filter.
  destruct (smooth_frame self flt) as (-> & -> & -> & _). reflexivity.
Qed.

Lemma update_configuration self t s e' :
  update self t s = Some e' -> configuration e' = configuration self.
Proof.
  rewrite update_unfold. cbv zeta. unfold correct_and_smooth.
  intro E. apply bind_some in E as (obs & _ & E).
  apply bind_some in E as (flt & Hc & E). injection E as <-.
  rewrite smooth_configuration.
  apply correct_parameters in Hc. rewrite Hc, predict_parameters.
  reflexivity.
Qed.

Lemma reset_configuration self e' :
  reset self = Some e' -> configuration e' = configuration self.
Proof.
  intro E. apply reset_some in E as (f & _ & ->). reflexivity.
Qed.

Lemma reachable_configuration e0 e :
  reachable e0 e -> configuration e = configuration e0.
Proof.
  induction 1 as [|e t s e' _ IH Hu|e e' _ IH Hr].
  - reflexivity.
  - rewrite <- IH. eapply update_configuration; eassumption.
  - rewrite <- IH. now apply reset_configuration.
Qed.

(** C6.  On an estimator built by the constructor and used since, [reset]
    returns; a second [reset] changes nothing more; the state it leaves has
    zero filter velocity, covariance the identity times the initial
    variance, three smoothing buffers that hold no sample and the unset
    timestamp 0, all as the constructor left them; and the filter's Q, R, H,
    F and B are as before the call. *)
Theorem reset_restores_startup_state
    (rob : Robot) (a sv iv : Qc) (w : Z) (e0 e : VelocityEstimator) :
  __init__ rob a sv iv w = Some e0 ->
  reachable e0 e ->
  exists e1,
    reset e = Some e1 /\
    reset e1 = Some e1 /\
    Kalman.x (filter e1) = zeros3 /\
    Kalman.P (filter e1) = mscale eye3 iv /\
    value_deque (moving_window_filter_x e1) = [] /\
    value_deque (moving_window_filter_y e1) = [] /\
    value_deque (moving_window_filter_z e1) = [] /\
    _last_timestamp e1 = 0 /\
    estimation_state e1 = estimation_state e0 /\
    Kalman.parameters (filter e1) = Kalman.parameters (filter e).
Proof.
  intros Hinit Hreach.
  apply reachable_configuration in Hreach.
  apply init_some in Hinit as (Hw & ->).
  unfold configuration in Hreach. simpl in Hreach.
  injection Hreach as Hrob Hiv Hws Hpar.
  eexists. split.
  - unfold reset. rewrite Hws, (new_positive w Hw). simpl. reflexivity.
  - simpl. split.
    + unfold reset. simpl. rewrite (new_positive w Hw). simpl. reflexivity.
    + rewrite Hiv. repeat (split; [reflexivity|]). reflexivity.
Qed.

Lemma reset_restores_startup_state_witness :
  exists e e1,
    update Example.fresh_estimator (Example.ms 2) Example.walking = Some e /\
    reset e = Some e1 /\
    reset e1 = Some e1 /\
    estimation_state e1 = estimation_state Example.fresh_estimator /\
    Kalman.parameters (filter e1) = Kalman.parameters (filter e).
Proof.
  destruct (returns_some
              (update Example.fresh_estimator (Example.ms 2) Example.walking))
    as [e E]; [vm_compute; reflexivity|].
  destruct (reset_restores_startup_state Example.a1 default_variance
              default_variance default_variance default_window
              Example.fresh_estimator e fresh_estimator_built)
    as (e1 & Hr & Hrr & _ & _ & _ & _ & _ & _ & Hst & Hpar).
  - eapply reach_update; [apply reach_init | exact E].
  - exists e, e1. auto.
Defined.

(** ** The measurement from the legs in contact *)

Lemma dot1_three p q r a b c :
  dot1 [p; q; r] [a; b; c] = Some (vdot (mkVec3 p q r) (mkVec3 a b c)).
Proof. simpl. unfold vdot. simpl. f_equal. ring. Qed.

Lemma np_dot_three_columns m v :
  Forall (fun row => length row = 3%nat) m ->
  np_dot m (entries_of v) = Some (map (row_dot v) m).
Proof.
  destruct v as [a b c]. unfold entries_of. simpl vx. simpl vy. simpl vz.
  induction 1 as [|row m Hrow _ IH].
  - reflexivity.
  - destruct row as [|p [|q [|r [|? ?]]]]; try discriminate.
    cbn [np_dot]. rewrite dot1_three, IH. reflexivity.
Qed.

Lemma observe_leg_in_contact s rot_mat obs leg jac qd :
  nth_error (GetFootContacts s) leg = Some true ->
  leg_data s leg jac qd ->
  observe_leg s rot_mat obs leg =
  Some (obs ++ [Spec.leg_estimate rot_mat jac qd]).
Proof.
  intros Hc (Hcols & Hrows & Hqd).
  unfold observe_leg. rewrite Hc. cbn [bind].
  rewrite Hqd, (np_dot_three_columns _ _ Hcols). cbn [bind].
  rewrite firstn_map, Hrows.
  destruct jac as [[a b c] [d e f] [g h i]]. reflexivity.
Qed.

Lemma observe_leg_off_ground s rot_mat obs leg :
  nth_error (GetFootContacts s) leg = Some false ->
  observe_leg s rot_mat obs leg = Some obs.
Proof. intro Hc. unfold observe_leg. now rewrite Hc. Qed.

Lemma observe_fold s rot_mat jac qd legs : forall obs,
  (forall leg, In leg legs ->
     (leg < length (GetFootContacts s))%nat /\
     (nth leg (GetFootContacts s) false = true ->
      leg_data s leg (jac leg) (qd leg))) ->
  fold_left
    (fun acc leg_id => o <- acc ;; observe_leg s rot_mat o leg_id)
    legs (Some obs) =
  Some (obs ++
        map (fun leg => Spec.leg_estimate rot_mat (jac leg) (qd leg))
            (List.filter (fun leg => nth leg (GetFootContacts s) false) legs)).
Proof.
  induction legs as [|leg legs IH]; intros obs Hlegs.
  - simpl. now rewrite app_nil_r.
  - destruct (Hlegs leg (or_introl eq_refl)) as [Hlt Hdata].
    assert (Hnth : nth_error (GetFootContacts s) leg =
                   Some (nth leg (GetFootContacts s) false))
      by now apply nth_error_nth'.
    cbn [fold_left bind List.filter].
    destruct (nth leg (GetFootContacts s) false) eqn:Hc.
    + rewrite (observe_leg_in_contact _ _ _ _ _ _ Hnth (Hdata eq_refl)).
      rewrite IH by (intros l Hl; apply Hlegs; now right).
      cbn [map]. now rewrite <- app_assoc.
    + rewrite (observe_leg_off_ground _ _ _ _ Hnth).
      apply IH. intros l Hl. apply Hlegs. now right.
Qed.

Lemma observe_legs_in_contact s rot_mat jac qd :
  (4 <= length (GetFootContacts s))%nat ->
  (forall leg, In leg (Spec.contact_legs (GetFootContacts s)) ->
     leg_data s leg (jac leg) (qd leg)) ->
  observe_legs s rot_mat =
  Some (map (fun leg => Spec.leg_estimate rot_mat (jac leg) (qd leg))
            (Spec.contact_legs (GetFootContacts s))).
Proof.
  intros Hlen Hdata. unfold observe_legs.
  rewrite (observe_fold s rot_mat jac qd (seq 0 4) []).
  - reflexivity.
  - intros leg Hin. split.
    + apply in_seq in Hin. lia.
    + intro Hc. apply Hdata. unfold Spec.contact_legs.
      apply filter_In. split; assumption.
Qed.

Lemma fold_left_vadd l : forall z,
  fold_left vadd l z =
  mkVec3 (vx z + Spec.sum_list (map vx l))
         (vy z + Spec.sum_list (map vy l))
         (vz z + Spec.sum_list (map vz l)).
Proof.
  induction l as [|a l IH]; intro z.
  - destruct z. simpl. f_equal; ring.
  - simpl. rewrite IH. unfold vadd. simpl. f_equal; ring.
Qed.

Lemma np_mean_is_arithmetic_mean l : np_mean l = Spec.arithmetic_mean l.
Proof.
  unfold np_mean, Spec.arithmetic_mean, Spec.count, vdiv.
  rewrite fold_left_vadd. simpl. now rewrite !Qcplus_0_l.
Qed.

(** C1.  With the sensor data well formed (four contact flags, and for each
    leg in contact a Jacobian of three columns and at least three rows and
    three motor velocities at places 3 leg .. 3 leg + 2), the velocities
    [update] collects are, leg by leg in leg order, the rotation matrix times
    the negated product of the first three Jacobian rows and the leg's three
    motor velocities; and when a leg is in contact the measurement [update]
    hands to the filter's update step is their unweighted arithmetic
    mean. *)
Theorem measurement_is_mean_over_contact_legs
    (self : VelocityEstimator) (t : Qc) (s : Sensors)
    (jac : nat -> Mat3) (qd : nat -> Vec3) :
  let rot_mat := getMatrixFromQuaternion (robot self) (GetBaseOrientation s) in
  (4 <= length (GetFootContacts s))%nat ->
  (forall leg, In leg (Spec.contact_legs (GetFootContacts s)) ->
     leg_data s leg (jac leg) (qd leg)) ->
  Spec.contact_legs (GetFootContacts s) <> [] ->
  observe_legs s rot_mat =
    Some (map (fun leg => Spec.leg_estimate rot_mat (jac leg) (qd leg))
              (Spec.contact_legs (GetFootContacts s))) /\
  update self t s =
    (corrected <-
       Kalman.update
         (Kalman.predict (filter self)
            (vscale (calibrated_acc rot_mat (GetBaseAcceleration s))
                    (fst (_compute_delta_time self t))))
         (Spec.measurement rot_mat (GetFootContacts s) jac qd) ;;
     Some (smooth (set_last_timestamp self t) corrected)).
Proof.
  intros rot_mat Hlen Hdata Hsome.
  pose proof (observe_legs_in_contact s rot_mat jac qd Hlen Hdata) as Hobs.
  split; [exact Hobs|].
  rewrite update_unfold. cbv zeta. fold rot_mat. unfold correct_and_smooth.
  rewrite Hobs. cbn [bind]. unfold Spec.measurement.
  destruct (Spec.contact_legs (GetFootContacts s)) as [|leg legs];
    [now elim Hsome|].
  cbn [map correct]. rewrite np_mean_is_arithmetic_mean. reflexivity.
Qed.

Lemma measurement_is_mean_over_contact_legs_witness :
  Spec.measurement (getMatrixFromQuaternion Example.a1 Example.level)
    (GetFootContacts Example.trotting)
    (fun _ => Example.minus_identity_matrix) Example.trotting_velocities
  = mkVec3 (1 + 1) 1 0 /\
  update Example.fresh_estimator (Example.ms 2) Example.trotting =
    (corrected <-
       Kalman.update
         (Kalman.predict (filter Example.fresh_estimator)
            (vscale
               (calibrated_acc
                  (getMatrixFromQuaternion Example.a1 Example.level)
                  (GetBaseAcceleration Example.trotting))
               (fst (_compute_delta_time Example.fresh_estimator
                       (Example.ms 2)))))
         (Spec.measurement (getMatrixFromQuaternion Example.a1 Example.level)
            (GetFootContacts Example.trotting)
            (fun _ => Example.minus_identity_matrix)
            Example.trotting_velocities) ;;
     Some (smooth (set_last_timestamp Example.fresh_estimator (Example.ms 2))
             corrected)).
Proof.
  split.
  - apply vec3_eqb_eq. vm_compute. reflexivity.
  - apply (measurement_is_mean_over_contact_legs Example.fresh_estimator
             (Example.ms 2) Example.trotting
             (fun _ => Example.minus_identity_matrix)
             Example.trotting_velocities).
    + simpl. lia.
    + intros leg Hin. simpl in Hin.
      destruct Hin as [<-|[<-|[]]];
        (split; [repeat constructor | split; reflexivity]).
    + discriminate.
Defined.

(** ** The scenario of section 8 *)

Lemma vscale_zeros k : vscale zeros3 k = zeros3.
Proof. unfold vscale, zeros3. simpl. now rewrite Qcmult_0_l. Qed.

Lemma estimates_cons self t s rest :
  estimates self ((t, s) :: rest) =
  (self' <- update self t s ;;
   vs <- estimates self' rest ;;
   Some (estimated_velocity self' :: vs)).
Proof. reflexivity. Qed.

(** In a tick of the scenario the filter predicts with a zero input and is
    corrected by the measurement (1, 0, 0), whatever the time. *)
Lemma scenario_update self t s :
  scenario_tick (robot self) (t, s) ->
  update self t s =
  (corrected <-
     Kalman.update (Kalman.predict (filter self) zeros3) (mkVec3 1 0 0) ;;
   Some (smooth (set_last_timestamp self t) corrected)).
Proof.
  intros (Hacc & obs & Hobs & Hne & Hmean). simpl in Hacc, Hobs.
  rewrite update_unfold. cbv zeta. unfold correct_and_smooth.
  rewrite Hacc, vscale_zeros, Hobs. cbn [bind].
  destruct obs as [|v obs]; [now elim Hne|].
  cbn [correct]. now rewrite Hmean.
Qed.

Ltac scenario_step H :=
  rewrite estimates_cons, scenario_update by exact H;
  match goal with
  | |- context [bind (bind (Kalman.update ?k ?z) ?f) _] =>
      let r := eval vm_compute in (bind (Kalman.update k z) f) in
      replace (bind (Kalman.update k z) f) with r by (vm_compute; reflexivity)
  end;
  cbn [bind].

(** C5.  An estimator built with accelerometer variance, sensor variance and
    initial variance 0.1 and a window of 120 is run for five ticks, in each
    of which the calibrated acceleration is zero and the measurement from the
    contact legs is (1, 0, 0).  All five updates return; the x component of
    the estimate read after each tick grows strictly from tick to tick and
    stays below 1; the y and z components are exactly 0. *)
Theorem scenario_estimate_rises_towards_one
    (rob : Robot) (e0 : VelocityEstimator) (ticks : list (Qc * Sensors)) :
  __init__ rob (Q2Qc (1 # 10)) (Q2Qc (1 # 10)) (Q2Qc (1 # 10)) 120 = Some e0 ->
  length ticks = 5%nat ->
  Forall (scenario_tick rob) ticks ->
  exists vs,
    estimates e0 ticks = Some vs /\
    length vs = 5%nat /\
    strictly_increasing (map vx vs) /\
    Forall (fun v => vx v < 1 /\ vx v <= 1 /\ vy v = 0 /\ vz v = 0) vs.
Proof.
  intros Hinit Hlen Hall.
  apply init_some in Hinit as (_ & ->).
  destruct ticks as [|[t1 s1] [|[t2 s2] [|[t3 s3] [|[t4 s4] [|[t5 s5] [|]]]]]];
    try discriminate.
  inversion Hall as [|? ? H1 Hall1]; subst.
  inversion Hall1 as [|? ? H2 Hall2]; subst.
  inversion Hall2 as [|? ? H3 Hall3]; subst.
  inversion Hall3 as [|? ? H4 Hall4]; subst.
  inversion Hall4 as [|? ? H5 _]; subst.
  scenario_step H1. scenario_step H2. scenario_step H3. scenario_step H4.
  scenario_step H5.
  eexists. split; [reflexivity|]. split; [reflexivity|]. split.
  - vm_compute. repeat split; reflexivity.
  - repeat constructor;
      first [ apply Qc_is_canon; vm_compute; reflexivity
            | vm_compute; reflexivity
            | vm_compute; discriminate ].
Qed.

Lemma walking_is_a_scenario_tick t :
  scenario_tick Example.a1 (t, Example.walking).
Proof.
  assert (Hleg : Spec.leg_estimate
                   (getMatrixFromQuaternion Example.a1 Example.level)
                   Example.minus_identity_matrix (mkVec3 1 0 0)
                 = mkVec3 1 0 0)
    by (apply vec3_eqb_eq; vm_compute; reflexivity).
  split.
  - apply vec3_eqb_eq. vm_compute. reflexivity.
  - exists [mkVec3 1 0 0]. split; [|split].
    + simpl snd.
      rewrite (observe_legs_in_contact Example.walking _
                 (fun _ => Example.minus_identity_matrix)
                 (fun _ => mkVec3 1 0 0)).
      * cbn [Spec.contact_legs Example.walking GetFootContacts GetBaseOrientation
             seq List.filter nth map].
        now rewrite Hleg.
      * simpl. lia.
      * intros leg Hin. simpl in Hin. destruct Hin as [<-|[]].
        split; [repeat constructor | split; reflexivity].
    + discriminate.
    + apply vec3_eqb_eq. vm_compute. reflexivity.
Qed.

Lemma scenario_estimate_rises_towards_one_witness :
  exists vs,
    estimates Example.fresh_estimator Example.five_ticks = Some vs /\
    length vs = 5%nat /\
    strictly_increasing (map vx vs) /\
    Forall (fun v => vx v < 1 /\ vx v <= 1 /\ vy v = 0 /\ vz v = 0) vs.
Proof.
  apply (scenario_estimate_rises_towards_one Example.a1
           Example.fresh_estimator Example.five_ticks).
  - reflexivity.
  - reflexivity.
  - repeat constructor; apply walking_is_a_scenario_tick.
Defined.

(** ** The accessor hands out a copy *)

Lemma load_some_lt h r a : load h r = Some a -> (r < length h)%nat.
Proof. intro E. apply nth_error_Some. unfold load in E. congruence. Qed.

Lemma load_fresh h : load h (length h) = None.
Proof. apply nth_error_None. lia. Qed.

Lemma load_grown h a b r : load h r = Some a -> load (h ++ [b]) r = Some a.
Proof.
  intro E. unfold load in *. rewrite nth_error_app1; [exact E|].
  now apply (load_some_lt h r a).
Qed.

Lemma load_last h a : load (h ++ [a]) (length h) = Some a.
Proof.
  unfold load. rewrite nth_error_app2 by lia.
  now rewrite Nat.sub_diag.
Qed.

Lemma mutate_last h a b : mutate (h ++ [a]) (length h) b = Some (h ++ [b]).
Proof.
  induction h as [|c h IH]; simpl.
  - reflexivity.
  - now rewrite IH.
Qed.

Lemma load_elsewhere h a b r :
  r <> length h -> load (h ++ [b]) r = load (h ++ [a]) r.
Proof.
  intro Hr. unfold load.
  destruct (Nat.lt_ge_cases r (length h)) as [Hlt|Hge].
  - now rewrite !nth_error_app1.
  - transitivity (@None ndarray);
      [|symmetry]; apply nth_error_None; rewrite length_app; simpl; lia.
Qed.

Lemma keeps_vec3 h h' r v :
  keeps h h' -> load_vec3 h r = Some v -> load_vec3 h' r = Some v.
Proof.
  unfold load_vec3. intros Hk E. apply bind_some in E as (a & Ha & E).
  now rewrite (Hk _ _ Ha).
Qed.

Lemma keeps_mat3 h h' r m :
  keeps h h' -> load_mat3 h r = Some m -> load_mat3 h' r = Some m.
Proof.
  unfold load_mat3. intros Hk E. apply bind_some in E as (a & Ha & E).
  now rewrite (Hk _ _ Ha).
Qed.

Lemma keeps_state_of h h' o e :
  keeps h h' -> state_of h o = Some e -> state_of h' o = Some e.
Proof.
  intros Hk E. unfold state_of in *.
  apply bind_some in E as (x & Hx & E).
  apply bind_some in E as (P & HP & E).
  apply bind_some in E as (Q & HQ & E).
  apply bind_some in E as (R & HR & E).
  apply bind_some in E as (H & HH & E).
  apply bind_some in E as (F & HF & E).
  apply bind_some in E as (B & HB & E).
  apply bind_some in E as (v & Hv & E).
  rewrite (keeps_vec3 _ _ _ _ Hk Hx), (keeps_mat3 _ _ _ _ Hk HP),
    (keeps_mat3 _ _ _ _ Hk HQ), (keeps_mat3 _ _ _ _ Hk HR),
    (keeps_mat3 _ _ _ _ Hk HH), (keeps_mat3 _ _ _ _ Hk HF),
    (keeps_mat3 _ _ _ _ Hk HB), (keeps_vec3 _ _ _ _ Hk Hv).
  exact E.
Qed.

Lemma state_of_cached h o e :
  state_of h o = Some e ->
  load h (o_estimated_velocity o) = Some (entries_of (estimated_velocity e)).
Proof.
  intro E. unfold state_of in E.
  apply bind_some in E as (x & _ & E).
  apply bind_some in E as (P & _ & E).
  apply bind_some in E as (Q & _ & E).
  apply bind_some in E as (R & _ & E).
  apply bind_some in E as (H & _ & E).
  apply bind_some in E as (F & _ & E).
  apply bind_some in E as (B & _ & E).
  apply bind_some in E as (v & Hv & E).
  injection E as <-. simpl.
  unfold load_vec3 in Hv. apply bind_some in Hv as (a & Ha & Hv).
  rewrite Ha. f_equal.
  destruct a as [|p [|q [|r [|? ?]]]]; try discriminate.
  injection Hv as <-. reflexivity.
Qed.

(** C8.  Reading [estimated_velocity] allocates a new array: the reference
    returned was not in use before, so it is none of the estimator's own; the
    new array holds the cached estimate; the read leaves the whole internal
    state as it was; whatever is then written into the returned array, the
    internal state, cached estimate included, is still as it was and every
    other array is untouched; and a second read returns another new array
    with the same contents as the first. *)
Theorem estimated_velocity_is_a_copy
    (h : heap) (o : EstimatorObject) (e : VelocityEstimator) :
  state_of h o = Some e ->
  exists r h1,
    get_estimated_velocity h o = Some (r, h1) /\
    load h r = None /\
    r <> o_estimated_velocity o /\
    load h1 r = Some (entries_of (estimated_velocity e)) /\
    state_of h1 o = Some e /\
    (forall a, exists h2,
       mutate h1 r a = Some h2 /\
       state_of h2 o = Some e /\
       load h2 (o_estimated_velocity o) =
         Some (entries_of (estimated_velocity e)) /\
       forall r', r' <> r -> load h2 r' = load h1 r') /\
    (exists r' h2,
       get_estimated_velocity h1 o = Some (r', h2) /\
       r' <> r /\
       load h2 r' = load h2 r).
Proof.
  intro E. pose proof (state_of_cached h o e E) as Hv.
  exists (length h), (h ++ [entries_of (estimated_velocity e)]).
  assert (Hk : forall b, keeps h (h ++ [b]))
    by (intros b r a; apply load_grown).
  split; [|split; [|split; [|split; [|split; [|split]]]]].
  - unfold get_estimated_velocity, copy. now rewrite Hv.
  - apply load_fresh.
  - intro Heq. rewrite <- Heq, load_fresh in Hv. discriminate.
  - apply load_last.
  - exact (keeps_state_of _ _ _ _ (Hk _) E).
  - intro a. exists (h ++ [a]). split; [apply mutate_last|].
    split; [exact (keeps_state_of _ _ _ _ (Hk _) E)|].
    split; [exact (Hk _ _ _ Hv)|].
    intros r' Hr'. now apply load_elsewhere.
  - set (h1 := h ++ [entries_of (estimated_velocity e)]).
    exists (length h1), (h1 ++ [entries_of (estimated_velocity e)]).
    split; [|split].
    + unfold get_estimated_velocity, copy.
      now rewrite (Hk _ _ _ Hv : load h1 _ = _).
    + unfold h1. rewrite length_app. simpl. lia.
    + rewrite load_last. symmetry. apply load_grown. apply load_last.
Qed.

Lemma estimated_velocity_is_a_copy_witness :
  exists e r h1,
    state_of Example.some_heap Example.some_object = Some e /\
    get_estimated_velocity Example.some_heap Example.some_object
      = Some (r, h1) /\
    forall a, exists h2,
      mutate h1 r a = Some h2 /\
      state_of h2 Example.some_object = Some e.
Proof.
  destruct (returns_some (state_of Example.some_heap Example.some_object))
    as [e E]; [vm_compute; reflexivity|].
  destruct (estimated_velocity_is_a_copy Example.some_heap
              Example.some_object e E)
    as (r & h1 & Hget & _ & _ & _ & _ & Hmut & _).
  exists e, r, h1. split; [exact E|]. split; [exact Hget|].
  intro a. destruct (Hmut a) as (h2 & Hm & Hs & _).
  exists h2. split; [exact Hm | exact Hs].
Defined.

(** For contrast: were the accessor to return the attribute itself, a
    write into the returned array would change the cached estimate. *)
Lemma an_alias_would_leak :
  exists r h2,
    get_alias Example.some_heap Example.some_object
      = Some (r, Example.some_heap) /\
    mutate Example.some_heap r [0; 0; 0] = Some h2 /\
    option_map estimated_velocity
      (state_of Example.some_heap Example.some_object)
      = Some (mkVec3 1 (1 + 1) (1 + 1 + 1)) /\
    option_map estimated_velocity (state_of h2 Example.some_object)
      = Some zeros3.
Proof.
  eexists. eexists. split; [reflexivity|]. split; [reflexivity|].
  split; reflexivity.
Qed.

(** * Further properties of the estimator *)

(** ** What construction fixes *)

(** X1.  Whatever [update] and [reset] calls follow construction, the
    estimator keeps the robot, initial variance and (positive) window size it
    was built with, and its filter keeps Q, R, H, F and B: the identity times
    the accelerometer variance, the identity times the sensor variance, and
    three identities. *)
Theorem construction_parameters_are_invariant
    (rob : Robot) (a sv iv : Qc) (w : Z) (e0 e : VelocityEstimator) :
  __init__ rob a sv iv w = Some e0 ->
  reachable e0 e ->
  robot e = rob /\
  _initial_variance e = iv /\
  _window_size e = w /\
  (0 < w)%Z /\
  Kalman.Q (filter e) = mscale eye3 a /\
  Kalman.R (filter e) = mscale eye3 sv /\
  Kalman.H (filter e) = eye3 /\
  Kalman.F (filter e) = eye3 /\
  Kalman.B (filter e) = eye3.
Proof.
  intros Hinit Hreach.
  apply reachable_configuration in Hreach.
  apply init_some in Hinit as (Hw & ->).
  unfold configuration, Kalman.parameters in Hreach. simpl in Hreach.
  injection Hreach as Hrob Hiv Hws HQ HR HH HF HB.
  repeat (split; [assumption|]). assumption.
Qed.

Lemma construction_parameters_are_invariant_witness :
  exists e e',
    update Example.fresh_estimator (Example.ms 2) Example.walking = Some e /\
    reset e = Some e' /\
    robot e' = Example.a1 /\
    _window_size e' = default_window /\
    Kalman.Q (filter e') = mscale eye3 default_variance.
Proof.
  destruct (returns_some
              (update Example.fresh_estimator (Example.ms 2) Example.walking))
    as [e E]; [vm_compute; reflexivity|].
  destruct (returns_some (reset e)) as [e' E'].
  { assert (H : returns
                  (e1 <- update Example.fresh_estimator (Example.ms 2)
                           Example.walking ;; reset e1) = true)
      by (vm_compute; reflexivity).
    rewrite E in H. exact H. }
  exists e, e'. split; [exact E|]. split; [exact E'|].
  destruct (construction_parameters_are_invariant Example.a1 default_variance
              default_variance default_variance default_window
              Example.fresh_estimator e' fresh_estimator_built)
    as (Hrob & _ & Hw & _ & HQ & _).
  - eapply reach_reset; [|exact E'].
    eapply reach_update; [apply reach_init | exact E].
  - auto.
Defined.

(** X9.  On an estimator built by the constructor and used since, [reset]
    gives back the estimator exactly as the constructor built it, but for
    the cached estimate, which stays; so a [reset] right after construction
    changes nothing at all. *)
Theorem reset_rebuilds_all_but_the_cached_estimate
    (rob : Robot) (a sv iv : Qc) (w : Z) (e0 e : VelocityEstimator) :
  __init__ rob a sv iv w = Some e0 ->
  reachable e0 e ->
  reset e = Some (set_estimated_velocity e0 (estimated_velocity e)) /\
  reset e0 = Some e0.
Proof.
  intros Hinit Hreach.
  apply reachable_configuration in Hreach.
  apply init_some in Hinit as (Hw & ->).
  unfold configuration, Kalman.parameters in Hreach. simpl in Hreach.
  injection Hreach as Hrob Hiv Hws HQ HR HH HF HB.
  split.
  - unfold reset, Kalman.set_x_P.
    rewrite Hws, (new_positive w Hw), Hrob, Hiv, HQ, HR, HH, HF, HB.
    reflexivity.
  - unfold reset. simpl. rewrite (new_positive w Hw). reflexivity.
Qed.

Lemma reset_rebuilds_all_but_the_cached_estimate_witness :
  exists e,
    update Example.fresh_estimator (Example.ms 2) Example.walking = Some e /\
    reset e =
      Some (set_estimated_velocity Example.fresh_estimator
              (estimated_velocity e)) /\
    reset Example.fresh_estimator = Some Example.fresh_estimator.
Proof.
  destruct (returns_some
              (update Example.fresh_estimator (Example.ms 2) Example.walking))
    as [e E]; [vm_compute; reflexivity|].
  exists e. split; [exact E|].
  apply (reset_rebuilds_all_but_the_cached_estimate Example.a1
           default_variance default_variance default_variance default_window
           Example.fresh_estimator e fresh_estimator_built).
  eapply reach_update; [apply reach_init | exact E].
Defined.

(** ** What [update] reads *)

Lemma nth_error_first_four {A : Type} (l l' : list A) leg :
  firstn 4 l = firstn 4 l' -> (leg < 4)%nat ->
  nth_error l leg = nth_error l' leg.
Proof.
  intros E Hleg.
  assert (Hl : forall m : list A,
             nth_error m leg = nth_error (firstn 4 m) leg).
  { intro m. rewrite nth_error_firstn.
    apply Nat.ltb_lt in Hleg. now rewrite Hleg. }
  now rewrite (Hl l), (Hl l'), E.
Qed.

Lemma observe_leg_same_reading s s' rot_mat obs leg :
  same_reading s s' -> (leg < 4)%nat ->
  observe_leg s rot_mat obs leg = observe_leg s' rot_mat obs leg.
Proof.
  intros (_ & _ & Hc & Hlegs) Hleg. unfold observe_leg.
  rewrite <- (nth_error_first_four _ _ leg Hc Hleg).
  destruct (nth_error (GetFootContacts s) leg) as [[|]|] eqn:Hn;
    cbn [bind]; try reflexivity.
  destruct (Hlegs leg Hleg) as [HJ Hq].
  - now apply nth_error_nth.
  - now rewrite HJ, Hq.
Qed.

Lemma observe_fold_same_reading s s' rot_mat legs : forall acc,
  same_reading s s' ->
  (forall leg, In leg legs -> (leg < 4)%nat) ->
  fold_left (fun acc leg_id => o <- acc ;; observe_leg s rot_mat o leg_id)
    legs acc =
  fold_left (fun acc leg_id => o <- acc ;; observe_leg s' rot_mat o leg_id)
    legs acc.
Proof.
  induction legs as [|leg legs IH]; intros acc Hs Hlt.
  - reflexivity.
  - cbn [fold_left].
    replace (o <- acc ;; observe_leg s' rot_mat o leg)
      with (o <- acc ;; observe_leg s rot_mat o leg).
    + apply IH; [exact Hs|]. intros l Hl. apply Hlt. now right.
    + destruct acc as [obs|]; [|reflexivity]. cbn [bind].
      apply observe_leg_same_reading; [exact Hs|]. apply Hlt. now left.
Qed.

(** X2.  [update] looks at the accelerometer, the orientation, the first
    four contact flags and, for the legs among those four whose flag is set,
    the Jacobian and the three motor velocities of the leg; at nothing
    else.  Two snapshots that agree on these give the same result, error or
    not: the Jacobian and the motor velocities of a leg in the air, further
    contact flags and further motor velocities are never read. *)
Theorem update_reads_contact_legs_only
    (self : VelocityEstimator) (t : Qc) (s s' : Sensors) :
  same_reading s s' -> update self t s = update self t s'.
Proof.
  intro Hs. rewrite !update_unfold. cbv zeta.
  pose proof Hs as (Hacc & Hor & _).
  rewrite <- Hacc, <- Hor. unfold correct_and_smooth.
  replace (observe_legs s'
             (getMatrixFromQuaternion (robot self) (GetBaseOrientation s)))
    with (observe_legs s
            (getMatrixFromQuaternion (robot self) (GetBaseOrientation s))).
  - reflexivity.
  - unfold observe_legs. apply observe_fold_same_reading; [exact Hs|].
    intros leg Hin. apply in_seq in Hin. lia.
Qed.

Lemma update_reads_contact_legs_only_witness :
  update Example.fresh_estimator (Example.ms 2) Example.trotting =
  update Example.fresh_estimator (Example.ms 2) Example.trotting_noisy.
Proof.
  apply (update_reads_contact_legs_only Example.fresh_estimator
           (Example.ms 2) Example.trotting Example.trotting_noisy).
  split; [reflexivity|]. split; [reflexivity|]. split; [reflexivity|].
  intros leg Hleg Hc.
  destruct leg as [|[|[|[|leg]]]]; try discriminate Hc; try lia;
    split; reflexivity.
Defined.

(** ** Malformed sensor data *)

Lemma observe_fold_none s rot_mat legs :
  fold_left (fun acc leg_id => o <- acc ;; observe_leg s rot_mat o leg_id)
    legs None = None.
Proof. induction legs as [|leg legs IH]; [reflexivity | exact IH]. Qed.

Lemma observe_fold_fails s rot_mat leg legs : forall acc,
  In leg legs ->
  (forall obs, observe_leg s rot_mat obs leg = None) ->
  fold_left (fun acc leg_id => o <- acc ;; observe_leg s rot_mat o leg_id)
    legs acc = None.
Proof.
  induction legs as [|l legs IH]; intros acc Hin Hfail.
  - destruct Hin.
  - cbn [fold_left]. destruct Hin as [->|Hin].
    + destruct acc as [obs|]; cbn [bind].
      * rewrite Hfail. apply observe_fold_none.
      * apply observe_fold_none.
    + now apply IH.
Qed.

Lemma update_fails_with_leg self t s leg :
  (leg < 4)%nat ->
  (forall rot_mat obs, observe_leg s rot_mat obs leg = None) ->
  update self t s = None.
Proof.
  intros Hleg Hfail. rewrite update_unfold. cbv zeta.
  unfold correct_and_smooth, observe_legs.
  rewrite (observe_fold_fails s _ leg); [reflexivity | | apply Hfail].
  apply in_seq. lia.
Qed.

(** X3.  [update] raises when the robot reports fewer than four contact
    flags, whatever the flags it does report. *)
Theorem update_raises_on_missing_contact_flag
    (self : VelocityEstimator) (t : Qc) (s : Sensors) :
  (length (GetFootContacts s) < 4)%nat -> update self t s = None.
Proof.
  intro Hlen.
  apply (update_fails_with_leg self t s (length (GetFootContacts s)) Hlen).
  intros rot_mat obs. unfold observe_leg.
  replace (nth_error (GetFootContacts s) (length (GetFootContacts s)))
    with (@None bool); [reflexivity|].
  symmetry. apply nth_error_None. lia.
Qed.

Lemma update_raises_on_missing_contact_flag_witness :
  update Example.fresh_estimator (Example.ms 2) Example.three_flags = None.
Proof.
  apply (update_raises_on_missing_contact_flag Example.fresh_estimator
           (Example.ms 2) Example.three_flags).
  simpl. lia.
Defined.

Lemma np_dot_length m v l : np_dot m v = Some l -> length l = length m.
Proof.
  revert l. induction m as [|row m IH]; intros l E.
  - injection E as <-. reflexivity.
  - cbn [np_dot] in E. apply bind_some in E as (p & _ & E).
    apply bind_some in E as (rest & Hrest & E). injection E as <-.
    simpl. f_equal. now apply IH.
Qed.

Lemma dot1_length a : forall b r, dot1 a b = Some r -> length a = length b.
Proof.
  induction a as [|p a IH]; intros [|q b] r E; try discriminate.
  - reflexivity.
  - cbn [dot1] in E. apply bind_some in E as (r' & Hr & _).
    simpl. f_equal. exact (IH _ _ Hr).
Qed.

Lemma as_vec3_length l v : as_vec3 l = Some v -> length l = 3%nat.
Proof.
  destruct l as [|a [|b [|c [|? ?]]]]; try discriminate. reflexivity.
Qed.

(** X4.  [update] raises when a leg in contact has a Jacobian of fewer than
    three rows: no 3-vector comes out for the rotation. *)
Theorem update_raises_on_short_jacobian
    (self : VelocityEstimator) (t : Qc) (s : Sensors) (leg : nat) :
  (leg < 4)%nat ->
  nth_error (GetFootContacts s) leg = Some true ->
  (length (ComputeJacobian s leg) < 3)%nat ->
  update self t s = None.
Proof.
  intros Hleg Hc Hrows.
  apply (update_fails_with_leg self t s leg Hleg).
  intros rot_mat obs. unfold observe_leg. rewrite Hc. cbn [bind].
  destruct (np_dot (ComputeJacobian s leg) _) as [l|] eqn:Hdot;
    [|reflexivity].
  cbn [bind]. apply np_dot_length in Hdot.
  destruct (as_vec3 (map Qcopp (firstn 3 l))) as [v|] eqn:Hv; [|reflexivity].
  apply as_vec3_length in Hv.
  rewrite length_map, length_firstn in Hv. lia.
Qed.

Lemma update_raises_on_short_jacobian_witness :
  update Example.fresh_estimator (Example.ms 2) Example.two_rows = None.
Proof.
  apply (update_raises_on_short_jacobian Example.fresh_estimator
           (Example.ms 2) Example.two_rows 0).
  - lia.
  - reflexivity.
  - simpl. lia.
Defined.

(** X5.  [update] raises when a leg in contact has a Jacobian of three
    columns and the robot reports fewer motor velocities than the leg's
    slice [3 leg : 3 leg + 3] needs: the slice comes out short and the
    product with the Jacobian fails. *)
Theorem update_raises_on_missing_motor_velocity
    (self : VelocityEstimator) (t : Qc) (s : Sensors) (leg : nat) :
  (leg < 4)%nat ->
  nth_error (GetFootContacts s) leg = Some true ->
  Forall (fun row => length row = 3%nat) (ComputeJacobian s leg) ->
  (length (GetMotorVelocities s) < (leg + 1) * 3)%nat ->
  update self t s = None.
Proof.
  intros Hleg Hc Hcols Hlen.
  apply (update_fails_with_leg self t s leg Hleg).
  intros rot_mat obs. unfold observe_leg. rewrite Hc. cbn [bind].
  set (qd := slice (GetMotorVelocities s) (leg * 3) ((leg + 1) * 3)).
  assert (Hqd : (length qd < 3)%nat).
  { unfold qd, slice. rewrite length_firstn, length_skipn. lia. }
  destruct (ComputeJacobian s leg) as [|row m] eqn:HJ.
  - reflexivity.
  - cbn [np_dot]. inversion Hcols as [|? ? Hrow _]; subst.
    destruct (dot1 row qd) as [p|] eqn:Hp; [|reflexivity].
    apply dot1_length in Hp. lia.
Qed.

Lemma update_raises_on_missing_motor_velocity_witness :
  update Example.fresh_estimator (Example.ms 2) Example.eleven_motors = None.
Proof.
  apply (update_raises_on_missing_motor_velocity Example.fresh_estimator
           (Example.ms 2) Example.eleven_motors 3).
  - lia.
  - reflexivity.
  - repeat constructor.
  - simpl. lia.
Defined.

(** ** One leg on the ground *)

Lemma np_mean_single v : np_mean [v] = v.
Proof.
  destruct v as [a b c]. unfold np_mean, vdiv. simpl.
  assert (H1 : Q2Qc (inject_Z 1) = 1) by (apply Qc_is_canon; reflexivity).
  rewrite H1. f_equal; field; discriminate.
Qed.

(** X6.  When exactly one of the four legs is in contact, with well formed
    data, the measurement handed to the filter's update step is that leg's
    own estimate, the rotation matrix times minus the Jacobian times the
    leg's motor velocities: the mean of one vector is the vector. *)
Theorem single_contact_leg_is_the_measurement
    (self : VelocityEstimator) (t : Qc) (s : Sensors) (leg : nat)
    (jac : Mat3) (qd : Vec3) :
  let rot_mat := getMatrixFromQuaternion (robot self) (GetBaseOrientation s) in
  (4 <= length (GetFootContacts s))%nat ->
  Spec.contact_legs (GetFootContacts s) = [leg] ->
  leg_data s leg jac qd ->
  update self t s =
    (corrected <-
       Kalman.update
         (Kalman.predict (filter self)
            (vscale (calibrated_acc rot_mat (GetBaseAcceleration s))
                    (fst (_compute_delta_time self t))))
         (mvec rot_mat (vneg (mvec jac qd))) ;;
     Some (smooth (set_last_timestamp self t) corrected)).
Proof.
  intros rot_mat Hlen Hone Hdata.
  rewrite update_unfold. cbv zeta. fold rot_mat. unfold correct_and_smooth.
  rewrite (observe_legs_in_contact s rot_mat (fun _ => jac) (fun _ => qd) Hlen).
  - rewrite Hone. cbn [map bind correct]. rewrite np_mean_single.
    reflexivity.
  - intros l Hl. rewrite Hone in Hl. destruct Hl as [<-|[]]. exact Hdata.
Qed.

Lemma single_contact_leg_is_the_measurement_witness :
  update Example.fresh_estimator (Example.ms 2) Example.walking =
    (corrected <-
       Kalman.update
         (Kalman.predict (filter Example.fresh_estimator)
            (vscale
               (calibrated_acc
                  (getMatrixFromQuaternion Example.a1 Example.level)
                  (GetBaseAcceleration Example.walking))
               (fst (_compute_delta_time Example.fresh_estimator
                       (Example.ms 2)))))
         (mvec (getMatrixFromQuaternion Example.a1 Example.level)
            (vneg (mvec Example.minus_identity_matrix (mkVec3 1 0 0)))) ;;
     Some (smooth (set_last_timestamp Example.fresh_estimator (Example.ms 2))
             corrected)).
Proof.
  apply (single_contact_leg_is_the_measurement Example.fresh_estimator
           (Example.ms 2) Example.walking 0 Example.minus_identity_matrix
           (mkVec3 1 0 0)).
  - simpl. lia.
  - reflexivity.
  - split; [repeat constructor | split; reflexivity].
Defined.

(** ** Time that does not advance *)

Lemma Qc_minus_nonpositive (t l : Qc) : t <= l -> t - l <= 0.
Proof.
  intro H. apply Qcle_minus_iff. apply Qcle_minus_iff in H.
  replace (0 + - (t - l)) with (l + - t) by ring. exact H.
Qed.

(** X7.  A timestamp that does not advance is not detected.  When the
    stored timestamp is set (not 0) and [current_time] is no later than it,
    the elapsed time is their difference, zero or negative; [update] goes on
    with it (with no leg in contact it returns), predicts with the
    calibrated acceleration times that elapsed time, and stores
    [current_time]. *)
Theorem clock_regression_is_not_detected
    (self : VelocityEstimator) (t : Qc) (s : Sensors) :
  _last_timestamp self <> 0 ->
  t <= _last_timestamp self ->
  no_contact s ->
  exists self',
    update self t s = Some self' /\
    fst (_compute_delta_time self t) = t - _last_timestamp self /\
    t - _last_timestamp self <= 0 /\
    filter self' =
      Kalman.predict (filter self)
        (vscale
           (calibrated_acc
              (getMatrixFromQuaternion (robot self) (GetBaseOrientation s))
              (GetBaseAcceleration s))
           (t - _last_timestamp self)) /\
    _last_timestamp self' = t.
Proof.
  intros Hset Hle Hs.
  assert (Hd : fst (_compute_delta_time self t) = t - _last_timestamp self).
  { unfold _compute_delta_time. simpl.
    destruct (Qc_eq_dec (_last_timestamp self) 0); [contradiction|reflexivity]. }
  eexists. split; [apply update_no_contact, Hs|].
  split; [exact Hd|]. split; [now apply Qc_minus_nonpositive|].
  rewrite smooth_filter, smooth_last_timestamp, Hd. split; reflexivity.
Qed.

Lemma clock_regression_is_not_detected_witness :
  exists self',
    update (set_last_timestamp Example.fresh_estimator (Example.ms 4))
      (Example.ms 2) Example.falling = Some self' /\
    Example.ms 2 - Example.ms 4 <= 0 /\
    _last_timestamp self' = Example.ms 2.
Proof.
  destruct (clock_regression_is_not_detected
              (set_last_timestamp Example.fresh_estimator (Example.ms 4))
              (Example.ms 2) Example.falling)
    as (self' & Hu & _ & Hneg & _ & Hts).
  - apply Qc_neq_by_value. vm_compute. reflexivity.
  - discriminate.
  - reflexivity.
  - exists self'. split; [exact Hu|]. split; [exact Hneg | exact Hts].
Defined.

(** ** When the filter is corrected *)

Lemma observe_leg_grows s rot_mat obs leg obs' :
  observe_leg s rot_mat obs leg = Some obs' ->
  (leg < length (GetFootContacts s))%nat /\
  length obs' =
    (length obs + if nth leg (GetFootContacts s) false then 1 else 0)%nat.
Proof.
  unfold observe_leg. intro E.
  apply bind_some in E as (c & Hc & E).
  assert (Hlt : (leg < length (GetFootContacts s))%nat)
    by (apply nth_error_Some; congruence).
  split; [exact Hlt|].
  rewrite (nth_error_nth _ _ false Hc).
  destruct c.
  - apply bind_some in E as (l & _ & E).
    apply bind_some in E as (v & _ & E). injection E as <-.
    rewrite length_app. reflexivity.
  - injection E as <-. lia.
Qed.

Lemma observe_fold_grows s rot_mat legs : forall obs obs',
  fold_left (fun acc leg_id => o <- acc ;; observe_leg s rot_mat o leg_id)
    legs (Some obs) = Some obs' ->
  (forall leg, In leg legs -> (leg < length (GetFootContacts s))%nat) /\
  length obs' =
    (length obs +
     length (List.filter (fun leg => nth leg (GetFootContacts s) false) legs))%nat.
Proof.
  induction legs as [|leg legs IH]; intros obs obs' E.
  - injection E as <-. split; [intros ? []|]. simpl. lia.
  - cbn [fold_left bind] in E.
    destruct (observe_leg s rot_mat obs leg) as [obs1|] eqn:E1;
      [|rewrite observe_fold_none in E; discriminate].
    apply observe_leg_grows in E1 as (Hlt & Hlen1).
    apply IH in E as (Hrest & Hlen). split.
    + intros l [<-|Hl]; [exact Hlt | now apply Hrest].
    + rewrite Hlen, Hlen1. cbn [List.filter].
      destruct (nth leg (GetFootContacts s) false); simpl; lia.
Qed.

Lemma no_contact_iff_no_contact_leg s :
  (4 <= length (GetFootContacts s))%nat ->
  no_contact s <-> Spec.contact_legs (GetFootContacts s) = [].
Proof.
  unfold no_contact, Spec.contact_legs. intro Hlen.
  destruct (GetFootContacts s) as [|c0 [|c1 [|c2 [|c3 rest]]]];
    simpl in Hlen; try lia.
  destruct c0, c1, c2, c3; simpl; split; intro E;
    first [discriminate | reflexivity].
Qed.

Lemma update_some_inv self t s self' :
  update self t s = Some self' ->
  exists obs flt,
    observe_legs s
      (getMatrixFromQuaternion (robot self) (GetBaseOrientation s)) = Some obs /\
    correct
      (Kalman.predict (filter self)
         (vscale
            (calibrated_acc
               (getMatrixFromQuaternion (robot self) (GetBaseOrientation s))
               (GetBaseAcceleration s))
            (fst (_compute_delta_time self t)))) obs = Some flt /\
    filter self' = flt.
Proof.
  rewrite update_unfold. cbv zeta. unfold correct_and_smooth. intro E.
  apply bind_some in E as (obs & Hobs & E).
  apply bind_some in E as (flt & Hc & E). injection E as <-.
  exists obs, flt. split; [exact Hobs|]. split; [exact Hc|].
  apply smooth_filter.
Qed.

Lemma observe_legs_count s rot_mat obs :
  observe_legs s rot_mat = Some obs ->
  (4 <= length (GetFootContacts s))%nat /\
  length obs = length (Spec.contact_legs (GetFootContacts s)).
Proof.
  unfold observe_legs. intro E.
  apply observe_fold_grows in E as (Hlt & Hlen). split.
  - assert (H3 : (3 < length (GetFootContacts s))%nat)
      by (apply Hlt; apply in_seq; lia). lia.
  - exact Hlen.
Qed.

Lemma correct_nil flt : correct flt [] = Some flt.
Proof. reflexivity. Qed.

Lemma correct_cons flt v obs :
  correct flt (v :: obs) = Kalman.update flt (np_mean (v :: obs)).
Proof. reflexivity. Qed.

(** X8.  When [update] returns, the velocities it collected are as many as
    there are legs in contact among the four.  If no leg is in contact the
    list is empty and the filter it leaves is the predicted one.  If some leg
    is in contact the list is not empty and the filter it leaves is what the
    filter's update step returns for the predicted filter and the mean of
    the collected velocities. *)
Theorem update_corrects_with_collected_mean
    (self self' : VelocityEstimator) (t : Qc) (s : Sensors) :
  let rot_mat := getMatrixFromQuaternion (robot self) (GetBaseOrientation s) in
  let predicted :=
    Kalman.predict (filter self)
      (vscale (calibrated_acc rot_mat (GetBaseAcceleration s))
              (fst (_compute_delta_time self t))) in
  update self t s = Some self' ->
  exists obs,
    observe_legs s rot_mat = Some obs /\
    length obs = length (Spec.contact_legs (GetFootContacts s)) /\
    ((no_contact s /\ obs = [] /\ filter self' = predicted) \/
     (~ no_contact s /\ obs <> [] /\
      Kalman.update predicted (np_mean obs) = Some (filter self'))).
Proof.
  cbv zeta. intro E.
  apply update_some_inv in E as (obs & flt & Hobs & Hc & ->).
  exists obs. split; [exact Hobs|].
  apply observe_legs_count in Hobs as (H4 & Hlen).
  split; [exact Hlen|].
  pose proof (no_contact_iff_no_contact_leg s H4) as Hiff.
  destruct obs as [|v obs].
  - left. rewrite correct_nil in Hc. injection Hc as <-.
    split; [|split; reflexivity].
    apply Hiff. apply length_zero_iff_nil. symmetry. exact Hlen.
  - right. rewrite correct_cons in Hc.
    split; [|split; [discriminate | exact Hc]].
    intro Hn. apply Hiff in Hn. rewrite Hn in Hlen. discriminate.
Qed.

Lemma update_corrects_with_collected_mean_witness :
  exists self' obs,
    update Example.fresh_estimator (Example.ms 2) Example.trotting
      = Some self' /\
    observe_legs Example.trotting
      (getMatrixFromQuaternion Example.a1 Example.level) = Some obs /\
    length obs = 2%nat.
Proof.
  destruct (returns_some
              (update Example.fresh_estimator (Example.ms 2) Example.trotting))
    as [self' E]; [vm_compute; reflexivity|].
  destruct (update_corrects_with_collected_mean Example.fresh_estimator
              self' (Example.ms 2) Example.trotting E)
    as (obs & Hobs & Hlen & _).
  exists self', obs. split; [exact E|]. split; [exact Hobs | exact Hlen].
Defined.
